(** * NetCDF TimeRemapper: a shallow embedding of the three filter scripts

    The ParaView programmable filter [NetCDF_TimeRemapper.py] consists of
    three scripts that share the long-lived Python object [self]:

    - the RequestInformation script reads a text file of time stamps,
      computes the custom time axis and publishes it downstream;
    - the RequestUpdateExtent script maps the requested custom time back
      to a native time step of the upstream reader;
    - the RequestData script copies the input and attaches the
      [time_units] and [current_date] string arrays.

    The embedding keeps that shape: a record for the attributes of [self],
    records for the two [vtkInformation] objects and the field data, and a
    state monad in which an exception leaves every assignment made before
    it in place, as in Python. *)

From Stdlib Require Import ZArith QArith Qround List String Ascii Bool Arith Lia.
Import ListNotations.

Local Close Scope Q_scope.
Local Open Scope list_scope.

(** ** Python values and exceptions *)

Module Py.

(** The pieces of an f-string: literal text, [{x!r}] and [{n}] for an
    integer [n]. *)
Inductive piece : Type :=
  | Lit (s : string)
  | Repr (s : string)
  | Dec (n : Z).

Inductive exn_class : Type :=
  | RuntimeError
  | ValueError
  | AttributeError
  | IndexError
  | NameError.

Inductive exn : Type :=
  | Exn (c : exn_class) (msg : list piece).

Definition class_of (e : exn) : exn_class :=
  match e with Exn c _ => c end.

Definition message_of (e : exn) : list piece :=
  match e with Exn _ m => m end.

Definition exn_class_eqb (a b : exn_class) : bool :=
  match a, b with
  | RuntimeError, RuntimeError
  | ValueError, ValueError
  | AttributeError, AttributeError
  | IndexError, IndexError
  | NameError, NameError => true
  | _, _ => false
  end.

(** The outcome of an expression that does not touch [self]. *)
Inductive result (A : Type) : Type :=
  | Ok (a : A)
  | Raise (e : exn).

Arguments Ok {A} a.
Arguments Raise {A} e.

Definition rbind {A B} (r : result A) (k : A -> result B) : result B :=
  match r with
  | Ok a => k a
  | Raise e => Raise e
  end.

(** A [for] loop that appends one computed element per item and stops at
    the first exception. *)
Fixpoint for_append {A B} (body : A -> result B) (l : list A) : result (list B) :=
  match l with
  | [] => Ok []
  | x :: l' =>
      rbind (body x) (fun y =>
      rbind (for_append body l') (fun ys => Ok (y :: ys)))
  end.

(** *** [str] *)

(** A character is a code point below 256.  [str.strip] removes the
    characters for which [str.isspace] holds. *)
Definition isspace (c : ascii) : bool :=
  let n := nat_of_ascii c in
  ((9 <=? n) && (n <=? 13)) || ((28 <=? n) && (n <=? 32))
  || (n =? 133) || (n =? 160).

Fixpoint lstrip (s : string) : string :=
  match s with
  | EmptyString => EmptyString
  | String c s' => if isspace c then lstrip s' else s
  end.

Fixpoint rstrip (s : string) : string :=
  match s with
  | EmptyString => EmptyString
  | String c s' =>
      match rstrip s' with
      | EmptyString => if isspace c then EmptyString else String c EmptyString
      | r => String c r
      end
  end.

Definition strip (s : string) : string := rstrip (lstrip s).

(** Truth value of a string: the empty string is false. *)
Definition truthy (s : string) : bool :=
  match s with
  | EmptyString => false
  | String _ _ => true
  end.

(** [s.startswith(p)] *)
Definition startswith (s p : string) : bool := String.prefix p s.

(** [sub in s] *)
Fixpoint contains (sub s : string) : bool :=
  String.prefix sub s ||
  match s with
  | EmptyString => false
  | String _ s' => contains sub s'
  end.

(** [s.split(sep, 1)] for a one-character separator: one element when the
    separator does not occur, otherwise the text before and after its
    first occurrence. *)
Fixpoint split1 (sep : ascii) (s : string) : list string :=
  match s with
  | EmptyString => [EmptyString]
  | String c s' =>
      if Ascii.eqb c sep then [EmptyString; s']
      else match split1 sep s' with
           | [a] => [String c a]
           | a :: rest => String c a :: rest
           | [] => []
           end
  end.

(** [str.lower] on code points below 256. *)
Definition lower_char (c : ascii) : ascii :=
  let n := nat_of_ascii c in
  if ((65 <=? n) && (n <=? 90))
     || ((192 <=? n) && (n <=? 222) && negb (n =? 215))
  then ascii_of_nat (n + 32) else c.

Fixpoint lower (s : string) : string :=
  match s with
  | EmptyString => EmptyString
  | String c s' => String (lower_char c) (lower s')
  end.

(** *** [float] *)

(** A Python float as far as [==] and [<=] can tell: not-a-number, an
    infinity, or a finite value (both zeros are the value 0). *)
Inductive float : Type :=
  | nan
  | inf (negative : bool)
  | fin (q : Q).

Definition float_eq (x y : float) : bool :=
  match x, y with
  | fin p, fin q => Qeq_bool p q
  | inf a, inf b => Bool.eqb a b
  | _, _ => false
  end.

Definition float_le (x y : float) : bool :=
  match x, y with
  | nan, _ | _, nan => false
  | inf true, _ => true
  | _, inf false => true
  | fin p, fin q => Qle_bool p q
  | _, _ => false
  end.

(** [float(n)] for a 64-bit integer [n]: exact up to 2^53 in absolute
    value, rounded to the nearest 53-bit significand (ties to even)
    beyond. *)
Definition round_to_double (k : Z) : Z :=
  let a := Z.abs k in
  if (a <? 2 ^ 53)%Z then k
  else
    let sh := (Z.log2 a - 52)%Z in
    let m := Z.shiftr a sh in
    let r := (a - Z.shiftl m sh)%Z in
    let half := Z.shiftl 1 (sh - 1) in
    let m' := if (half <? r)%Z || ((half =? r)%Z && Z.odd m)
              then (m + 1)%Z else m in
    (Z.sgn k * Z.shiftl m' sh)%Z.

Definition float_of_int (k : Z) : float := fin (inject_Z (round_to_double k)).

(** *** [list] *)

(** [item == x] where [item] is a float of a list and [x] is a float or
    [None]. *)
Definition item_eq (item : float) (x : option float) : bool :=
  match x with
  | None => false
  | Some y => float_eq item y
  end.

Fixpoint index_from (n : nat) (l : list float) (x : option float) : result nat :=
  match l with
  | [] => Raise (Exn ValueError [Lit "x is not in list"%string])
  | item :: l' => if item_eq item x then Ok n else index_from (S n) l' x
  end.

(** [l.index(x)]: the position of the first item equal to [x]. *)
Definition index (l : list float) (x : option float) : result nat :=
  index_from 0 l x.

(** [l[i]] for [i >= 0]. *)
Definition getitem {A} (l : list A) (i : nat) : result A :=
  match nth_error l i with
  | Some a => Ok a
  | None => Raise (Exn IndexError [Lit "list index out of range"%string])
  end.

(** [l[-1]] *)
Definition getlast {A} (l : list A) : result A :=
  match l with
  | [] => Raise (Exn IndexError [Lit "list index out of range"%string])
  | a :: l' => Ok (List.last l' a)
  end.

End Py.

(** ** The [numpy] date-time primitive

    [np.datetime64(text)] belongs to NumPy, not to the filter.  The model
    follows NumPy's ISO 8601 reader and its day count for the layouts
    [YYYY-MM-DDThh], [YYYY-MM-DDThh:mm] and [YYYY-MM-DDThh:mm:ss] with a
    signed year of any number of digits (astronomical numbering: year 0
    exists, proleptic Gregorian leap rule), plus the empty text and [NaT].
    The arithmetic is the 64-bit arithmetic of the C code: a count that
    leaves the 64-bit range wraps around, and the least 64-bit value is
    not-a-time.  An instant is held as its count of seconds since 1970
    whatever the unit of the text, which gives the same difference in
    whole seconds.  Fractional seconds, time-zone suffixes and the words
    [today] and [now] are outside the model and are reported like
    unreadable text.  [astype(int)] is the 64-bit integer of NumPy 2 and
    of 64-bit Unix. *)

Module Numpy.

Import Py.
Local Open Scope Z_scope.

Definition int64_min : Z := - 2 ^ 63.
Definition int64_max : Z := 2 ^ 63 - 1.

Definition in_int64 (z : Z) : bool := (int64_min <=? z) && (z <=? int64_max).

(** Two's-complement reduction of an integer to 64 bits. *)
Definition wrap_int64 (z : Z) : Z := (z + 2 ^ 63) mod 2 ^ 64 - 2 ^ 63.

(** [+], [-], [*] and unary [-] on [npy_int64]. *)
Definition add64 (a b : Z) : Z := wrap_int64 (a + b).
Definition sub64 (a b : Z) : Z := wrap_int64 (a - b).
Definition mul64 (a b : Z) : Z := wrap_int64 (a * b).
Definition neg64 (a : Z) : Z := wrap_int64 (- a).

Record datetimestruct : Type := {
  year : Z;
  month : Z;
  day : Z;
  hour : Z;
  minute : Z;
  sec : Z
}.

(** C's [(year & 0x3) == 0 && ((year % 100) != 0 || (year % 400) == 0)]. *)
Definition is_leapyear (y : Z) : bool :=
  (Z.land y 3 =? 0) && (negb (Z.rem y 100 =? 0) || (Z.rem y 400 =? 0)).

Definition days_per_month_table (leap : bool) : list Z :=
  if leap then [31; 29; 31; 30; 31; 30; 31; 31; 30; 31; 30; 31]
  else [31; 28; 31; 30; 31; 30; 31; 31; 30; 31; 30; 31].

(** Days since 1970-01-01; the divisions truncate toward zero as in C. *)
Definition get_datetimestruct_days (dts : datetimestruct) : Z :=
  let y := sub64 (year dts) 1970 in
  let days := mul64 y 365 in
  let days :=
    if 0 <=? days then
      let y := add64 y 1 in
      let days := add64 days (Z.quot y 4) in
      let y := add64 y 68 in
      let days := sub64 days (Z.quot y 100) in
      let y := add64 y 300 in
      add64 days (Z.quot y 400)
    else
      let y := sub64 y 2 in
      let days := add64 days (Z.quot y 4) in
      let y := sub64 y 28 in
      let days := sub64 days (Z.quot y 100) in
      add64 days (Z.quot y 400) in
  let month_lengths := days_per_month_table (is_leapyear (year dts)) in
  let days :=
    fold_left add64 (firstn (Z.to_nat (month dts - 1)) month_lengths) days in
  add64 days (day dts - 1).

Definition datetimestruct_to_seconds (dts : datetimestruct) : Z :=
  add64
    (mul64
       (add64 (mul64 (add64 (mul64 (get_datetimestruct_days dts) 24) (hour dts)) 60)
          (minute dts))
       60)
    (sec dts).

Definition isdigit (c : ascii) : bool :=
  let n := nat_of_ascii c in ((48 <=? n) && (n <=? 57))%nat.

Definition digit (c : ascii) : Z := Z.of_nat (nat_of_ascii c) - 48.

(** The year: digits up to the first other character. *)
Fixpoint parse_year (acc : Z) (s : string) : Z * string :=
  match s with
  | String c s' =>
      if isdigit c then parse_year (add64 (mul64 10 acc) (digit c)) s'
      else (acc, s)
  | EmptyString => (acc, s)
  end.

(** Exactly two digits. *)
Definition parse_two (s : string) : option (Z * string) :=
  match s with
  | String a (String b s') =>
      if isdigit a && isdigit b then Some (10 * digit a + digit b, s') else None
  | _ => None
  end.

Definition expect (c : ascii) (s : string) : option string :=
  match s with
  | String c' s' => if Ascii.eqb c' c then Some s' else None
  | EmptyString => None
  end.

Definition obind {A B} (o : option A) (k : A -> option B) : option B :=
  match o with
  | Some a => k a
  | None => None
  end.

(** The time of day after the [T]: hours, then optionally minutes, then
    optionally seconds, then the end of the text. *)
Definition parse_time (s : string) : option (Z * Z * Z) :=
  obind (parse_two s) (fun '(h, s) =>
  if 24 <=? h then None else
  match s with
  | EmptyString => Some (h, 0, 0)
  | _ =>
    obind (expect ":" s) (fun s =>
    obind (parse_two s) (fun '(m, s) =>
    if 60 <=? m then None else
    match s with
    | EmptyString => Some (h, m, 0)
    | _ =>
      obind (expect ":" s) (fun s =>
      obind (parse_two s) (fun '(sc, s) =>
      if 60 <=? sc then None else
      match s with
      | EmptyString => Some (h, m, sc)
      | _ => None
      end))
    end))
  end).

(** C's [isspace] in the default locale. *)
Definition c_isspace (c : ascii) : bool :=
  let n := nat_of_ascii c in (((9 <=? n) && (n <=? 13)) || (n =? 32))%nat.

Fixpoint skip_whitespace (s : string) : string :=
  match s with
  | String c s' => if c_isspace c then skip_whitespace s' else s
  | EmptyString => EmptyString
  end.

Definition parse_iso_8601_datetime (str : string) : option datetimestruct :=
  let negative :=
    match str with String "-" _ => true | _ => false end in
  let s := skip_whitespace str in
  let s :=
    match s with
    | String "-" r | String "+" r => r
    | _ => s
    end in
  match s with
  | EmptyString => None
  | _ =>
    let '(y, s) := parse_year 0 s in
    let y := if negative then neg64 y else y in
    obind (expect "-" s) (fun s =>
    obind (parse_two s) (fun '(mo, s) =>
    if (mo <? 1) || (12 <? mo) then None else
    obind (expect "-" s) (fun s =>
    obind (parse_two s) (fun '(d, s) =>
    if (d <? 1)
       || (nth (Z.to_nat (mo - 1)) (days_per_month_table (is_leapyear y)) 0 <? d)
    then None else
    match s with
    | String sep s =>
        if Ascii.eqb sep "T" || Ascii.eqb sep " " then
          obind (parse_time s) (fun '(h, mi, sc) =>
          Some {| year := y; month := mo; day := d;
                  hour := h; minute := mi; sec := sc |})
        else None
    | EmptyString => None
    end))))
  end.

(** A [datetime64] value: not-a-time or a count of seconds since 1970. *)
Inductive datetime : Type :=
  | NaT
  | Instant (seconds : Z).

(** The value a 64-bit count stands for: the least count is not-a-time. *)
Definition of_count (v : Z) : datetime :=
  if v =? int64_min then NaT else Instant v.

Definition parse_error (text : string) : exn :=
  Exn ValueError [Lit "Error parsing datetime string "%string; Repr text].

(** [np.datetime64(text)] *)
Definition datetime64 (text : string) : result datetime :=
  if String.eqb text "" || String.eqb (lower text) "nat" then Ok NaT
  else
    match parse_iso_8601_datetime text with
    | Some dts => Ok (of_count (datetimestruct_to_seconds dts))
    | None => Raise (parse_error text)
    end.

(** [(a - b).astype('timedelta64[s]').astype(int)]: the difference in whole
    seconds as a 64-bit integer; not-a-time is the least 64-bit value. *)
Definition timedelta_seconds (a b : datetime) : Z :=
  match a, b with
  | Instant x, Instant y => wrap_int64 (x - y)
  | _, _ => int64_min
  end.

End Numpy.

(** ** The VTK objects the scripts talk to

    [vtkInformation] and [vtkFieldData] belong to VTK.  An information
    object is modelled by the three keys the scripts use, the field data by
    the ordered list of its arrays. *)

Module Vtk.

Import Py.

Record information : Type := {
  TIME_STEPS : option (list float);
  TIME_RANGE : option (list float);
  UPDATE_TIME_STEP : option float
}.

Definition Has {A} (key : information -> option A) (info : information) : bool :=
  match key info with
  | Some _ => true
  | None => false
  end.

Definition Remove_TIME_STEPS (info : information) : information :=
  {| TIME_STEPS := None;
     TIME_RANGE := TIME_RANGE info;
     UPDATE_TIME_STEP := UPDATE_TIME_STEP info |}.

Definition Remove_TIME_RANGE (info : information) : information :=
  {| TIME_STEPS := TIME_STEPS info;
     TIME_RANGE := None;
     UPDATE_TIME_STEP := UPDATE_TIME_STEP info |}.

Definition Remove_UPDATE_TIME_STEP (info : information) : information :=
  {| TIME_STEPS := TIME_STEPS info;
     TIME_RANGE := TIME_RANGE info;
     UPDATE_TIME_STEP := None |}.

(** [info.Length(TIME_STEPS)] *)
Definition Length_TIME_STEPS (info : information) : nat :=
  match TIME_STEPS info with
  | Some l => List.length l
  | None => 0
  end.

(** [info.Get(TIME_STEPS, i)] *)
Definition Get_TIME_STEPS (info : information) (i : nat) : float :=
  match TIME_STEPS info with
  | Some l => nth i l (fin 0%Q)
  | None => fin 0%Q
  end.

(** [info.Append(TIME_STEPS, t)] *)
Definition Append_TIME_STEPS (info : information) (t : float) : information :=
  {| TIME_STEPS :=
       Some (match TIME_STEPS info with Some l => l ++ [t] | None => [t] end);
     TIME_RANGE := TIME_RANGE info;
     UPDATE_TIME_STEP := UPDATE_TIME_STEP info |}.

(** [info.Set(TIME_RANGE, values, n)] *)
Definition Set_TIME_RANGE (info : information) (values : list float) (n : nat)
  : information :=
  {| TIME_STEPS := TIME_STEPS info;
     TIME_RANGE := Some (firstn n values);
     UPDATE_TIME_STEP := UPDATE_TIME_STEP info |}.

(** [info.Get(UPDATE_TIME_STEP)]: the value of the key, 0.0 when the key
    is not set. *)
Definition Get_UPDATE_TIME_STEP (info : information) : float :=
  match UPDATE_TIME_STEP info with
  | Some t => t
  | None => fin 0%Q
  end.

(** [info.Set(UPDATE_TIME_STEP, t)] *)
Definition Set_UPDATE_TIME_STEP (info : information) (t : float) : information :=
  {| TIME_STEPS := TIME_STEPS info;
     TIME_RANGE := TIME_RANGE info;
     UPDATE_TIME_STEP := Some t |}.

(** The payload of an array: the values of a [vtkStringArray], or numbers. *)
Inductive values : Type :=
  | Strings (l : list string)
  | Doubles (l : list float).

Record array : Type := {
  name : option string;
  payload : values
}.

Definition fielddata : Type := list array.

Definition GetNumberOfArrays (fd : fielddata) : nat := List.length fd.

Definition GetArrayName (fd : fielddata) (i : nat) : option string :=
  match nth_error fd i with
  | Some a => name a
  | None => None
  end.

Definition has_name (n : string) (a : array) : bool :=
  match name a with
  | Some m => String.eqb m n
  | None => false
  end.

(** [fd.RemoveArray(n)]: the first array called [n] goes, the later ones
    move up. *)
Fixpoint RemoveArray (fd : fielddata) (n : string) : fielddata :=
  match fd with
  | [] => []
  | a :: fd' => if has_name n a then fd' else a :: RemoveArray fd' n
  end.

Fixpoint replace_named (n : string) (a : array) (fd : fielddata) : fielddata :=
  match fd with
  | [] => [a]
  | b :: fd' => if has_name n b then a :: fd' else b :: replace_named n a fd'
  end.

(** [fd.AddArray(a)]: [a] takes the place of the first array of the same
    name, or is appended. *)
Definition AddArray (fd : fielddata) (a : array) : fielddata :=
  match name a with
  | Some n => replace_named n a fd
  | None => fd ++ [a]
  end.

End Vtk.

(** ** The filter: state shared by the three scripts *)

Module Filter.

Import Py Numpy Vtk.

(** The attributes the scripts attach to [self]; [None] is an attribute
    that does not exist.  [current_requested_custom_time] may exist and
    hold Python's [None]. *)
Record self_t : Type := {
  custom_times : option (list float);
  orig_times : option (list float);
  new_units : option string;
  custom_times_annotation : option (list string);
  initialized : option bool;
  current_requested_custom_time : option (option float)
}.

(** A filter instance between two pipeline passes: [self], the input and
    output information objects, and the field data of the input and of
    the output data object. *)
Record filter : Type := {
  self : self_t;
  in_info : information;
  out_info : information;
  input_fd : fielddata;
  output_fd : fielddata
}.

Definition with_self (g : self_t -> self_t) (st : filter) : filter :=
  {| self := g (self st); in_info := in_info st; out_info := out_info st;
     input_fd := input_fd st; output_fd := output_fd st |}.

Definition with_in_info (g : information -> information) (st : filter) : filter :=
  {| self := self st; in_info := g (in_info st); out_info := out_info st;
     input_fd := input_fd st; output_fd := output_fd st |}.

Definition with_out_info (g : information -> information) (st : filter) : filter :=
  {| self := self st; in_info := in_info st; out_info := g (out_info st);
     input_fd := input_fd st; output_fd := output_fd st |}.

Definition with_output_fd (g : fielddata -> fielddata) (st : filter) : filter :=
  {| self := self st; in_info := in_info st; out_info := out_info st;
     input_fd := input_fd st; output_fd := g (output_fd st) |}.

Definition set_custom_times (v : option (list float)) (s : self_t) : self_t :=
  {| custom_times := v; orig_times := orig_times s; new_units := new_units s;
     custom_times_annotation := custom_times_annotation s;
     initialized := initialized s;
     current_requested_custom_time := current_requested_custom_time s |}.

Definition set_orig_times (v : option (list float)) (s : self_t) : self_t :=
  {| custom_times := custom_times s; orig_times := v; new_units := new_units s;
     custom_times_annotation := custom_times_annotation s;
     initialized := initialized s;
     current_requested_custom_time := current_requested_custom_time s |}.

Definition set_new_units (v : option string) (s : self_t) : self_t :=
  {| custom_times := custom_times s; orig_times := orig_times s; new_units := v;
     custom_times_annotation := custom_times_annotation s;
     initialized := initialized s;
     current_requested_custom_time := current_requested_custom_time s |}.

Definition set_custom_times_annotation (v : option (list string)) (s : self_t)
  : self_t :=
  {| custom_times := custom_times s; orig_times := orig_times s;
     new_units := new_units s;
     custom_times_annotation := v;
     initialized := initialized s;
     current_requested_custom_time := current_requested_custom_time s |}.

Definition set_initialized (v : option bool) (s : self_t) : self_t :=
  {| custom_times := custom_times s; orig_times := orig_times s;
     new_units := new_units s;
     custom_times_annotation := custom_times_annotation s;
     initialized := v;
     current_requested_custom_time := current_requested_custom_time s |}.

Definition set_current_requested_custom_time (v : option (option float))
  (s : self_t) : self_t :=
  {| custom_times := custom_times s; orig_times := orig_times s;
     new_units := new_units s;
     custom_times_annotation := custom_times_annotation s;
     initialized := initialized s;
     current_requested_custom_time := v |}.

(** *** Scripts as state transformers that may raise

    A script maps the filter to the filter it leaves behind and either a
    value or the exception that ended it; what was assigned before the
    exception stays assigned. *)

Definition M (A : Type) : Type := filter -> filter * result A.

Definition ret {A} (a : A) : M A := fun st => (st, Ok a).

Definition bind {A B} (c : M A) (k : A -> M B) : M B :=
  fun st =>
    match c st with
    | (st', Ok a) => k a st'
    | (st', Raise e) => (st', Raise e)
    end.

Definition raise {A} (e : exn) : M A := fun st => (st, Raise e).

Definition lift {A} (r : result A) : M A := fun st => (st, r).

Definition gets {A} (g : filter -> A) : M A := fun st => (st, Ok (g st)).

Definition modify (g : filter -> filter) : M unit := fun st => (g st, Ok tt).

(** [try: c  except cls: h] *)
Definition try_except {A} (c : M A) (cls : exn_class) (h : M A) : M A :=
  fun st =>
    match c st with
    | (st', Raise e) =>
        if exn_class_eqb (class_of e) cls then h st' else (st', Raise e)
    | r => r
    end.

Declare Scope script_scope.
Delimit Scope script_scope with script.

Notation "x <- c ;; k" := (bind c (fun x => k))
  (at level 61, c at next level, right associativity) : script_scope.
Notation "' pat <- c ;; k" := (bind c (fun x => match x with pat => k end))
  (at level 61, pat pattern, c at next level, right associativity) : script_scope.
Notation "c ;; k" := (bind c (fun _ => k))
  (at level 61, right associativity) : script_scope.

Local Open Scope script_scope.

Definition when (b : bool) (c : M unit) : M unit := if b then c else ret tt.

Definition hasattr {A} (attr : self_t -> option A) : M bool :=
  gets (fun st => match attr (self st) with Some _ => true | None => false end).

(** [self.attr] *)
Definition getattr {A} (attr : self_t -> option A) (attr_name : string) : M A :=
  fun st =>
    match attr (self st) with
    | Some v => (st, Ok v)
    | None =>
        (st, Raise (Exn AttributeError
                      [Lit "object has no attribute "%string; Repr attr_name]))
    end.

(** [for x in l: body(x)] for a body that only changes the filter. *)
Definition for_each {A} (l : list A) (body : A -> filter -> filter) : M unit :=
  modify (fun st => fold_left (fun s x => body x s) l st).

(** *** 1. The RequestInformation script *)

(** The list comprehension over the open file: [time_file] is the
    sequence of lines the file iterator yields, line ends included.  The
    scripts are modelled from the point where [open] has returned; a file
    that cannot be opened is outside the model. *)
Definition read_lines (time_file : list string) : list string :=
  map strip
    (List.filter
       (fun line => truthy (strip line) && negb (startswith line "#"))
       time_file).

(** Splits a string like [-4000-01-01T00:00:00] into date and time part. *)
Definition parse_date (s : string) : result (string * string) :=
  let str := strip s in
  if negb (contains "T" s) then
    Raise (Exn ValueError
             [Lit "Invalid format, no 'T' separator: "%string; Repr str])
  else
    match split1 "T" s with
    | [date_part; time_part] =>
        if negb (truthy date_part) || negb (truthy time_part) then
          Raise (Exn ValueError
                   [Lit "Incomplete date-time string: "%string; Repr s;
                    Lit " ? date="%string; Repr date_part;
                    Lit ", time="%string; Repr time_part])
        else Ok (date_part, time_part)
    | _ => Raise (Exn ValueError [Lit "not enough values to unpack"%string])
    end.

Definition units_label (ref_date_str ref_time_str : string) : string :=
  ("seconds since " ++ ref_date_str ++ " " ++ ref_time_str)%string.

Definition annotation_of (line : string) : result string :=
  rbind (parse_date line) (fun '(date, time) =>
  Ok (date ++ " " ++ time)%string).

Definition seconds_since (ref_date : datetime) (line : string) : result float :=
  rbind (datetime64 line) (fun current_date =>
  let seconds_since_ref := timedelta_seconds current_date ref_date in
  Ok (float_of_int seconds_since_ref)).

Definition count_mismatch (n_dates num_ts : nat) : exn :=
  Exn ValueError
    [Lit "Number of dates in file ("%string; Dec (Z.of_nat n_dates);
     Lit ") doesn't match time steps in data ("%string; Dec (Z.of_nat num_ts);
     Lit ")!"%string].

(** Lines 53 to 111: the body of [if not hasattr(self, "custom_times")]. *)
Definition build (time_file : list string) : M unit :=
  let lines := read_lines time_file in
  match lines with
  | [] => raise (Exn RuntimeError [Lit "TXT file empty!"%string])
  | first :: _ =>
      ref_date <- lift (datetime64 first) ;;
      ' (ref_date_str, ref_time_str) <- lift (parse_date first) ;;
      modify (with_self (set_new_units
                (Some (units_label ref_date_str ref_time_str)))) ;;
      annotation <- lift (for_append annotation_of lines) ;;
      modify (with_self (set_custom_times_annotation (Some annotation))) ;;
      times <- lift (for_append (seconds_since ref_date) lines) ;;
      num_ts <- gets (fun st => Length_TIME_STEPS (in_info st)) ;;
      if negb (num_ts =? List.length times) then
        raise (count_mismatch (List.length times) num_ts)
      else
        orig <- gets (fun st => map (Get_TIME_STEPS (in_info st)) (seq 0 num_ts)) ;;
        modify (with_self (set_custom_times (Some times))) ;;
        modify (with_self (set_orig_times (Some orig))) ;;
        modify (with_self (set_initialized (Some true)))
  end.

(** Lines 114 to 130: the custom times go to the output information. *)
Definition publish : M unit :=
  has_ts <- gets (fun st => Has TIME_STEPS (out_info st)) ;;
  when has_ts (modify (with_out_info Remove_TIME_STEPS)) ;;
  has_tr <- gets (fun st => Has TIME_RANGE (out_info st)) ;;
  when has_tr (modify (with_out_info Remove_TIME_RANGE)) ;;
  times <- getattr custom_times "custom_times" ;;
  for_each times (fun t => with_out_info (fun info => Append_TIME_STEPS info t)) ;;
  times <- getattr custom_times "custom_times" ;;
  match times with
  | [] => ret tt
  | _ =>
      lo <- lift (getitem times 0) ;;
      hi <- lift (getlast times) ;;
      modify (with_out_info (fun info => Set_TIME_RANGE info [lo; hi] 2))
  end.

(** The whole script.  The name [ts_key] is bound inside the rebuilt
    block only; the publishing part needs it. *)
Definition RequestInformation (time_file : list string) : M unit :=
  has_ct <- hasattr custom_times ;;
  when has_ct (modify (with_self (set_custom_times None))) ;;
  has_ot <- hasattr orig_times ;;
  when has_ot (modify (with_self (set_orig_times None))) ;;
  has_ct <- hasattr custom_times ;;
  if negb has_ct then
    build time_file ;;
    publish
  else
    raise (Exn NameError [Lit "name 'ts_key' is not defined"%string]).

(** *** 2. The RequestUpdateExtent script

    The value returned is the script's variable [idx].  [requested_time]
    is the Python object that [Get] returns, a float. *)
Definition RequestUpdateExtent : M nat :=
  requested_time <-
    gets (fun st => Some (Get_UPDATE_TIME_STEP (out_info st))) ;;
  idx <- match requested_time with
         | Some _ =>
             try_except
               (times <- getattr custom_times "custom_times" ;;
                lift (index times requested_time))
               ValueError
               (ret 0)
         | None => ret 0
         end ;;
  has_upd <- gets (fun st => Has UPDATE_TIME_STEP (in_info st)) ;;
  when has_upd (modify (with_in_info Remove_UPDATE_TIME_STEP)) ;;
  orig <- getattr orig_times "orig_times" ;;
  t <- lift (getitem orig idx) ;;
  modify (with_in_info (fun info => Set_UPDATE_TIME_STEP info t)) ;;
  requested_time <-
    gets (fun st => Some (Get_UPDATE_TIME_STEP (out_info st))) ;;
  modify (with_self (set_current_requested_custom_time (Some requested_time))) ;;
  ret idx.

(** *** 3. The Script (RequestData)

    The value returned is again the script's variable [idx]. *)

(** The test of line 183 on an array name. *)
Definition is_time_units (name : option string) : bool :=
  match name with
  | Some n => contains "time" (lower n) && contains "units" (lower n)
  | None => false
  end.

(** Lines 180 to 184: the names to remove, in array order. *)
Definition arrays_to_remove (fd : fielddata) : list string :=
  flat_map
    (fun i =>
       match GetArrayName fd i with
       | Some n => if is_time_units (Some n) then [n] else []
       | None => []
       end)
    (seq 0 (GetNumberOfArrays fd)).

(** Lines 180 to 187: the field data after the removal loop. *)
Definition remove_time_units (fd : fielddata) : fielddata :=
  fold_left RemoveArray (arrays_to_remove fd) fd.

Definition time_units_array (units : string) : array :=
  {| name := Some "time_units"%string; payload := Strings [units] |}.

Definition current_date_array (label : string) : array :=
  {| name := Some "current_date"%string; payload := Strings [label] |}.

Definition RequestData : M nat :=
  modify (fun st => with_output_fd (fun _ => input_fd st) st) ;;
  modify (with_output_fd remove_time_units) ;;
  units <- getattr new_units "new_units" ;;
  modify (with_output_fd (fun fd => AddArray fd (time_units_array units))) ;;
  has_cur <- hasattr current_requested_custom_time ;;
  current_custom_time <-
    (if has_cur then
       getattr current_requested_custom_time "current_requested_custom_time"
     else
       times <- getattr custom_times "custom_times" ;;
       t <- lift (getitem times 0) ;;
       ret (Some t)) ;;
  idx <- try_except
           (times <- getattr custom_times "custom_times" ;;
            lift (index times current_custom_time))
           ValueError
           (ret 0) ;;
  annotation <- getattr custom_times_annotation "custom_times_annotation" ;;
  label <- lift (getitem annotation idx) ;;
  modify (with_output_fd (fun fd => AddArray fd (current_date_array label))) ;;
  ret idx.

(** *** What the host does between the scripts *)

(** The downstream side asks for a time: [UPDATE_TIME_STEP] on the output
    information, possibly unset. *)
Definition request_time (t : option float) (st : filter) : filter :=
  with_out_info
    (fun info =>
       {| TIME_STEPS := TIME_STEPS info; TIME_RANGE := TIME_RANGE info;
          UPDATE_TIME_STEP := t |}) st.

(** The upstream reader delivers a data object with field data [fd]. *)
Definition deliver_input (fd : fielddata) (st : filter) : filter :=
  {| self := self st; in_info := in_info st; out_info := out_info st;
     input_fd := fd; output_fd := output_fd st |}.

(** The states of a session: after a successful RequestInformation pass,
    and after any later request, input delivery or successful run of the
    other two scripts. *)
Inductive session : filter -> Prop :=
  | session_built time_file st st' :
      RequestInformation time_file st = (st', Ok tt) -> session st'
  | session_request t st :
      session st -> session (request_time t st)
  | session_input fd st :
      session st -> session (deliver_input fd st)
  | session_extent st st' idx :
      session st -> RequestUpdateExtent st = (st', Ok idx) -> session st'
  | session_data st st' idx :
      session st -> RequestData st = (st', Ok idx) -> session st'.

(** A filter object on which no script has run yet, in front of a reader
    with the native time steps [steps]. *)
Definition fresh (steps : list float) : filter :=
  {| self := {| custom_times := None; orig_times := None; new_units := None;
                custom_times_annotation := None; initialized := None;
                current_requested_custom_time := None |};
     in_info := {| TIME_STEPS := Some steps; TIME_RANGE := None;
                   UPDATE_TIME_STEP := None |};
     out_info := {| TIME_STEPS := None; TIME_RANGE := None;
                    UPDATE_TIME_STEP := None |};
     input_fd := [];
     output_fd := [] |}.

End Filter.

(** ** Specification-side vocabulary *)

Module Spec.

Import Py Numpy Vtk Filter.

(** The lookup shared by the last two scripts: the first position whose
    item equals the value, position 0 when there is none. *)
Definition resolve (times : list float) (x : option float) : nat :=
  match index times x with
  | Ok i => i
  | Raise _ => 0
  end.

(** Asking for custom time [t] in state [st] selects position [i] in the
    extent stage and again in the materialization stage that follows. *)
Definition resolves_to (st : filter) (t : float) (i : nat) : Prop :=
  snd (RequestUpdateExtent (request_time (Some t) st)) = Ok i /\
  snd (RequestData (fst (RequestUpdateExtent (request_time (Some t) st)))) = Ok i.

(** The value the materialization stage looks up: the one recorded by the
    extent stage (possibly Python's [None]), or the first custom time when
    nothing was recorded yet. *)
Definition selected (s : self_t) (times : list float) : option float :=
  match current_requested_custom_time s with
  | Some v => v
  | None => List.hd_error times
  end.

(** An integer-valued finite float. *)
Definition whole (t : float) : Prop := exists k : Z, t = fin (inject_Z k).

(** What a session keeps on [self]: the three sequences and the unit
    label exist, the sequences are equally long and not empty, the
    custom times are whole numbers of seconds, and looking up 0.0 gives
    position 0. *)
Definition consistent (s : self_t) : Prop :=
  exists times orig annotation units,
    custom_times s = Some times /\
    orig_times s = Some orig /\
    custom_times_annotation s = Some annotation /\
    new_units s = Some units /\
    List.length orig = List.length times /\
    List.length annotation = List.length times /\
    times <> [] /\
    Forall whole times /\
    resolve times (Some (fin 0%Q)) = 0.

(** A usable line that both [parse_date] and [np.datetime64] accept. *)
Definition well_formed (line : string) : bool :=
  match parse_date line, datetime64 line with
  | Ok _, Ok _ => true
  | _, _ => false
  end.

(** No part of the session state is on [self]. *)
Definition nothing_stored (s : self_t) : Prop :=
  custom_times s = None /\ orig_times s = None /\
  custom_times_annotation s = None /\ new_units s = None /\
  initialized s = None.

(** The published range bounds every custom time. *)
Definition range_bounds_all (st : filter) : Prop :=
  exists lo hi,
    TIME_RANGE (out_info st) = Some [lo; hi] /\
    forall times t,
      custom_times (self st) = Some times -> In t times ->
      float_le lo t = true /\ float_le t hi = true.

(** A sequence of floats that never decreases. *)
Definition non_decreasing (times : list float) : Prop :=
  forall i j x y,
    i <= j -> nth_error times i = Some x -> nth_error times j = Some y ->
    float_le x y = true.




(** The output information after the publishing part of the first script. *)
Definition published (times : list float) (info : information) : information :=
  {| TIME_STEPS := Some times;
     TIME_RANGE := Some [hd nan times; last times (hd nan times)];
     UPDATE_TIME_STEP := UPDATE_TIME_STEP info |}.

(** [self] after lines 46 to 50: the two timelines are gone. *)
Definition cleared (s : self_t) : self_t :=
  set_orig_times None (set_custom_times None s).

(** [self] after a rebuild that ran to its end. *)
Definition rebuilt (times orig : list float) (annotation : list string)
  (units : string) (s : self_t) : self_t :=
  {| custom_times := Some times;
     orig_times := Some orig;
     new_units := Some units;
     custom_times_annotation := Some annotation;
     initialized := Some true;
     current_requested_custom_time := current_requested_custom_time s |}.

(** [self] after a rebuild that stopped at the step-count check. *)
Definition stopped_at_count (annotation : list string) (units : string)
  (s : self_t) : self_t :=
  {| custom_times := None;
     orig_times := None;
     new_units := Some units;
     custom_times_annotation := Some annotation;
     initialized := initialized s;
     current_requested_custom_time := current_requested_custom_time s |}.

(** The native time steps as the first script reads them. *)
Definition native_steps (info : information) : list float :=
  map (Get_TIME_STEPS info) (seq 0 (Length_TIME_STEPS info)).

(** What can happen to a built filter: the host asks for a time or
    delivers input, or one of the two later scripts runs (to its end or
    to an exception). *)
Inductive step : Type :=
  | Ask (t : option float)
  | Deliver (fd : fielddata)
  | Extent
  | Data.

Definition run_step (o : step) (st : filter) : filter :=
  match o with
  | Ask t => request_time t st
  | Deliver fd => deliver_input fd st
  | Extent => fst (RequestUpdateExtent st)
  | Data => fst (RequestData st)
  end.

Definition run_steps (ops : list step) (st : filter) : filter :=
  fold_left (fun s o => run_step o s) ops st.



(** An array of the field data that the test of line 183 selects. *)
Definition stale (a : array) : bool := is_time_units (name a).

(** The names of the selected arrays, one per selected array. *)
Definition stale_names (fd : fielddata) : list string :=
  flat_map
    (fun a =>
       match name a with
       | Some n => if is_time_units (Some n) then [n] else []
       | None => []
       end)
    fd.

(** Containing a word case-insensitively, in the words of the
    specification and without reference to [str.lower]: the capital of a
    small ASCII letter, a character that is a given small letter in
    either case, a text that starts with a word of small letters in any
    mix of cases, and a text in which such a word occurs somewhere. *)
Definition capital (x : ascii) : ascii := ascii_of_nat (nat_of_ascii x - 32).

Definition same_letter (x c : ascii) : Prop := c = x \/ c = capital x.

Fixpoint starts_with_ci (word s : string) : Prop :=
  match word, s with
  | EmptyString, _ => True
  | String x word', String c s' => same_letter x c /\ starts_with_ci word' s'
  | String _ _, EmptyString => False
  end.

Definition occurs_ci (word s : string) : Prop :=
  exists before rest, s = (before ++ rest)%string /\ starts_with_ci word rest.

(** An array that has a name, and the name contains both [time] and
    [units] case-insensitively. *)
Definition names_time_and_units (a : array) : Prop :=
  exists n, name a = Some n /\ occurs_ci "time" n /\ occurs_ci "units" n.

(** Every character of a text has a property. *)
Fixpoint every_char (P : ascii -> Prop) (s : string) : Prop :=
  match s with
  | EmptyString => True
  | String c s' => P c /\ every_char P s'
  end.

(** The text of a string is made of the date part, one [T] and the time
    part, and the [T] is the first one. *)
Definition splits_as (s d t : string) : Prop :=
  s = (d ++ "T" ++ t)%string /\ contains "T" d = false.

(** A list of integers in which no element is below its predecessor. *)
Fixpoint ascending (l : list Z) : bool :=
  match l with
  | a :: (b :: _) as rest => (a <=? b)%Z && ascending rest
  | _ => true
  end.

(** Instants for which differences are below 2^53 in absolute value,
    where [float] is exact: at most 2^52 seconds from 1970. *)
Definition near_epoch (u : Z) : bool := (Z.abs u <? 2 ^ 52)%Z.

(** The custom times for the instants [us], by exact arithmetic. *)
Definition exact_durations (us : list Z) : list float :=
  map (fun u => fin (inject_Z (u - hd 0%Z us))) us.

(** A line the list comprehension drops: blank after stripping, or
    starting with [#]. *)
Definition dropped (raw : string) : bool :=
  negb (truthy (strip raw)) || startswith raw "#".

End Spec.

(** ** Inputs used as examples *)

Module Examples.

Import Py Numpy Vtk Filter.

Definition nl : string := String (ascii_of_nat 10) EmptyString.

Definition line (text : string) : string := (text ++ nl)%string.

Definition steps (n : nat) : list float :=
  map (fun i => fin (inject_Z (Z.of_nat i))) (seq 0 n).

(** The two entries of the BCE example. *)
Definition bce_file : list string :=
  [line "-0100-01-01T00:00:00"; line "0001-01-01T00:00:00"].

(** The same instant listed twice. *)
Definition repeated_file : list string :=
  [line "2000-01-01T00:00:00"; line "2000-01-01T00:00:00"].

(** Two days in descending order. *)
Definition descending_file : list string :=
  [line "2000-01-02T00:00:00"; line "2000-01-01T00:00:00"].

(** Three entries, hourly. *)
Definition hourly_file : list string :=
  [line "2000-01-01T12:00:00"; line "2000-01-01T13:00:00";
   line "2000-01-01T14:00:00"].

(** An entry followed by an indented comment. *)
Definition indented_comment_file : list string :=
  [line "2000-01-01T00:00:00"; line "  # second step"].

(** Comments in the first column and blank lines around one entry. *)
Definition commented_file : list string :=
  [line "# times"; nl; line "2000-01-01T12:00:00"; line "   "].

(** Field data carrying units attributes of the original source. *)
Definition source_fd : fielddata :=
  [ {| name := Some "Time_Units"%string; payload := Strings ["days since 1850-01-01"%string] |};
    {| name := Some "temperature"%string; payload := Doubles [fin 1%Q] |};
    {| name := None; payload := Doubles [] |};
    {| name := Some "Time_Units"%string; payload := Strings ["hours"%string] |};
    {| name := Some "time_units"%string; payload := Strings ["days"%string] |};
    {| name := Some "UNITS of TIME axis"%string; payload := Strings ["d"%string] |} ].

Definition built (time_file : list string) (n : nat) : filter :=
  fst (RequestInformation time_file (fresh (steps n))).

(** An entry with a date but no time of day after the [T]. *)
Definition incomplete_file : list string :=
  [line "2000-01-01T12:00:00"; line "2000-01-02T"].

End Examples.

(** ** Properties *)

Import Py Numpy Vtk Filter Spec Examples.

(** *** The list lookup *)

Lemma index_from_raises (l : list float) (x : option float) (n : nat) (e : exn) :
  index_from n l x = Raise e -> class_of e = ValueError.
Proof.
  revert n; induction l as [|item l IH]; intros n; simpl.
  - intros H; inversion H; reflexivity.
  - destruct (item_eq item x); [discriminate | apply IH].
Qed.

Lemma index_from_first (l : list float) (x : option float) (n i : nat) (t : float) :
  nth_error l i = Some t ->
  item_eq t x = true ->
  (forall j u, j < i -> nth_error l j = Some u -> item_eq u x = false) ->
  index_from n l x = Ok (n + i).
Proof.
  revert n i; induction l as [|item l IH]; intros n i Hnth Heq Hbefore.
  - destruct i; discriminate.
  - destruct i as [|i]; simpl in *.
    + inversion Hnth; subst. rewrite Heq. f_equal. lia.
    + rewrite (Hbefore 0 item) by (simpl; auto; lia).
      rewrite (IH (S n) i Hnth Heq).
      * f_equal. lia.
      * intros j u Hj Hu. apply (Hbefore (S j) u); [lia | exact Hu].
Qed.

Lemma index_from_absent (l : list float) (x : option float) (n : nat) :
  (forall u, In u l -> item_eq u x = false) ->
  exists e, index_from n l x = Raise e.
Proof.
  revert n; induction l as [|item l IH]; intros n Habs; simpl.
  - eexists; reflexivity.
  - rewrite (Habs item) by (left; reflexivity).
    apply IH. intros u Hu. apply Habs. right; exact Hu.
Qed.

Lemma index_from_found (l : list float) (x : option float) (n k : nat) :
  index_from n l x = Ok k ->
  n <= k /\ exists t, nth_error l (k - n) = Some t /\ item_eq t x = true.
Proof.
  revert n; induction l as [|item l IH]; intros n; simpl.
  - discriminate.
  - destruct (item_eq item x) eqn:E.
    + intros H; inversion H; subst. split; [lia |].
      exists item. rewrite Nat.sub_diag. simpl. auto.
    + intros H. destruct (IH _ H) as [Hle [t [Ht Hx]]].
      split; [lia |]. exists t.
      replace (k - n) with (S (k - S n)) by lia. simpl. auto.
Qed.

Lemma resolve_first (times : list float) (x : option float) (i : nat) (t : float) :
  nth_error times i = Some t ->
  item_eq t x = true ->
  (forall j u, j < i -> nth_error times j = Some u -> item_eq u x = false) ->
  resolve times x = i.
Proof.
  intros Hnth Heq Hbefore. unfold resolve, index.
  rewrite (index_from_first times x 0 i t Hnth Heq Hbefore). reflexivity.
Qed.

Lemma resolve_absent (times : list float) (x : option float) :
  (forall u, In u times -> item_eq u x = false) -> resolve times x = 0.
Proof.
  intros Habs. unfold resolve, index.
  destruct (index_from_absent times x 0 Habs) as [e He]. rewrite He. reflexivity.
Qed.

Lemma resolve_None (times : list float) : resolve times None = 0.
Proof. apply resolve_absent. intros; reflexivity. Qed.

Lemma resolve_lt (times : list float) (x : option float) :
  times <> [] -> resolve times x < List.length times.
Proof.
  intros Hne. unfold resolve, index.
  destruct (index_from 0 times x) as [k|e] eqn:E.
  - destruct (index_from_found _ _ _ _ E) as [_ [t [Ht _]]].
    rewrite Nat.sub_0_r in Ht.
    apply nth_error_Some. rewrite Ht. discriminate.
  - destruct times; [congruence | simpl; lia].
Qed.

Lemma whole_eq_refl (t : float) : whole t -> float_eq t t = true.
Proof.
  intros [k ->]. simpl. apply Qeq_bool_iff. reflexivity.
Qed.

(** *** Loops that collect *)

Lemma for_append_length {A B} (body : A -> result B) (l : list A) (ys : list B) :
  for_append body l = Ok ys -> List.length ys = List.length l.
Proof.
  revert ys; induction l as [|x l IH]; intros ys; simpl.
  - intros H; inversion H; reflexivity.
  - destruct (body x) as [y|e]; simpl; [|discriminate].
    destruct (for_append body l) as [ys'|e]; simpl; [|discriminate].
    intros H; inversion H; subst. simpl. f_equal. apply IH. reflexivity.
Qed.

Lemma for_append_Forall {A B} (body : A -> result B) (P : B -> Prop)
  (l : list A) (ys : list B) :
  (forall x y, body x = Ok y -> P y) ->
  for_append body l = Ok ys -> Forall P ys.
Proof.
  intros HP. revert ys; induction l as [|x l IH]; intros ys; simpl.
  - intros H; inversion H; constructor.
  - destruct (body x) as [y|e] eqn:E; simpl; [|discriminate].
    destruct (for_append body l) as [ys'|e]; simpl; [|discriminate].
    intros H; inversion H; subst. constructor; eauto.
Qed.

Lemma for_append_total {A B} (body : A -> result B) (l : list A) :
  Forall (fun x => exists y, body x = Ok y) l ->
  exists ys, for_append body l = Ok ys.
Proof.
  induction 1 as [|x l [y Hy] _ [ys Hys]]; simpl.
  - eexists; reflexivity.
  - rewrite Hy, Hys. simpl. eexists; reflexivity.
Qed.

Lemma seconds_since_whole (ref_date : datetime) (text : string) (t : float) :
  seconds_since ref_date text = Ok t -> whole t.
Proof.
  unfold seconds_since. destruct (datetime64 text); simpl; [|discriminate].
  intros H; inversion H. eexists; reflexivity.
Qed.

(** *** Running the request scripts *)

Ltac run_script :=
  unfold bind, gets, modify, ret, raise, lift, when, hasattr, getattr,
    try_except, for_each; cbn.

Ltac crank :=
  repeat (cbn;
          match goal with
          | H : ?f ?s = Some _ |- context [?f ?s] => rewrite H
          | H : ?f ?s = None |- context [?f ?s] => rewrite H
          end);
  cbn.

#[local] Arguments remove_time_units : simpl never.
#[local] Arguments AddArray : simpl never.
#[local] Arguments nth_error : simpl never.
#[local] Arguments index : simpl never.

Ltac finish_run E :=
  unfold with_self, with_in_info, with_out_info, with_output_fd,
    Set_UPDATE_TIME_STEP, Remove_UPDATE_TIME_STEP; cbn;
  rewrite ?E; reflexivity.

Lemma RequestUpdateExtent_run (st : filter) (times orig : list float) (t : float) :
  custom_times (self st) = Some times ->
  orig_times (self st) = Some orig ->
  nth_error orig
    (resolve times (Some (Get_UPDATE_TIME_STEP (out_info st)))) = Some t ->
  RequestUpdateExtent st =
    ({| self := set_current_requested_custom_time
                  (Some (Some (Get_UPDATE_TIME_STEP (out_info st)))) (self st);
        in_info := Set_UPDATE_TIME_STEP (in_info st) t;
        out_info := out_info st;
        input_fd := input_fd st;
        output_fd := output_fd st |},
     Ok (resolve times (Some (Get_UPDATE_TIME_STEP (out_info st))))).
Proof.
  destruct st as [s i o fi fo]; simpl. intros Hct Hot Hnth.
  unfold RequestUpdateExtent. run_script.
  rewrite Hct. unfold resolve in *. cbn.
  destruct (index times (Some (Get_UPDATE_TIME_STEP o))) as [k|e] eqn:Ei; cbn.
  - destruct (Has UPDATE_TIME_STEP i); cbn;
      rewrite Hot; unfold getitem; rewrite Hnth; finish_run Hot.
  - rewrite (index_from_raises _ _ _ _ Ei). cbn.
    destruct (Has UPDATE_TIME_STEP i); cbn;
      rewrite Hot; unfold getitem; rewrite Hnth; finish_run Hot.
Qed.

Lemma RequestData_run (st : filter) (times : list float)
  (annotation : list string) (units label : string) :
  custom_times (self st) = Some times ->
  times <> [] ->
  custom_times_annotation (self st) = Some annotation ->
  new_units (self st) = Some units ->
  nth_error annotation (resolve times (selected (self st) times)) = Some label ->
  RequestData st =
    ({| self := self st;
        in_info := in_info st;
        out_info := out_info st;
        input_fd := input_fd st;
        output_fd :=
          AddArray
            (AddArray (remove_time_units (input_fd st)) (time_units_array units))
            (current_date_array label) |},
     Ok (resolve times (selected (self st) times))).
Proof.
  destruct st as [s i o fi fo]; cbn. intros Hct Hne Han Hun Hnth.
  unfold RequestData. run_script. unfold with_output_fd.
  unfold selected, resolve, getitem in *.
  destruct (current_requested_custom_time s) as [cur|] eqn:Ec.
  - destruct (index times cur) as [k|e] eqn:Ei; crank.
    + rewrite Ei. crank. reflexivity.
    + rewrite Ei. cbn. rewrite (index_from_raises _ _ _ _ Ei). crank.
      reflexivity.
  - destruct times as [|t0 times]; [congruence|].
    change (hd_error (t0 :: times)) with (Some t0) in Hnth.
    destruct (index (t0 :: times) (Some t0)) as [k|e] eqn:Ei; crank;
      change (nth_error (t0 :: times) 0) with (Some t0); crank.
    + rewrite Ei. crank. reflexivity.
    + rewrite Ei. cbn. rewrite (index_from_raises _ _ _ _ Ei). crank.
      reflexivity.
Qed.

(** *** Running the RequestInformation script *)

Lemma Append_all_out (l : list float) (st : filter) :
  fold_left (fun s x => with_out_info (fun info => Append_TIME_STEPS info x) s) l st
  = with_out_info (fun info => fold_left Append_TIME_STEPS l info) st.
Proof.
  revert st; induction l as [|x l IH]; intros st; cbn.
  - destruct st; reflexivity.
  - rewrite IH. destruct st; reflexivity.
Qed.

Lemma Append_all_steps (l : list float) (info : information) (p : list float) :
  TIME_STEPS info = Some p ->
  fold_left Append_TIME_STEPS l info =
  {| TIME_STEPS := Some (p ++ l);
     TIME_RANGE := TIME_RANGE info;
     UPDATE_TIME_STEP := UPDATE_TIME_STEP info |}.
Proof.
  revert info p; induction l as [|x l IH]; intros info p Hp; cbn.
  - rewrite app_nil_r. destruct info; cbn in *; subst; reflexivity.
  - rewrite (IH _ (p ++ [x])).
    + cbn. rewrite <- app_assoc. reflexivity.
    + cbn. rewrite Hp. reflexivity.
Qed.

Lemma Append_all_fresh (x : float) (l : list float) (info : information) :
  TIME_STEPS info = None ->
  fold_left Append_TIME_STEPS (x :: l) info =
  {| TIME_STEPS := Some (x :: l);
     TIME_RANGE := TIME_RANGE info;
     UPDATE_TIME_STEP := UPDATE_TIME_STEP info |}.
Proof.
  intros Hnone. cbn. rewrite (Append_all_steps l _ [x]).
  - reflexivity.
  - cbn. rewrite Hnone. reflexivity.
Qed.

#[local] Arguments fold_left : simpl never.

Lemma publish_run (st : filter) (times : list float) :
  custom_times (self st) = Some times ->
  times <> [] ->
  publish st =
    ({| self := self st;
        in_info := in_info st;
        out_info := published times (out_info st);
        input_fd := input_fd st;
        output_fd := output_fd st |}, Ok tt).
Proof.
  destruct st as [s i o fi fo]. cbn. intros Hct Hne.
  destruct times as [|t0 times]; [congruence|].
  unfold publish. run_script.
  unfold with_out_info, Has, published.
  destruct o as [ts tr up]; cbn.
  destruct ts, tr; crank; rewrite Append_all_out; unfold with_out_info; cbn;
    rewrite Append_all_fresh by reflexivity; crank;
    unfold getitem; change (nth_error (t0 :: times) 0) with (Some t0); cbn;
    destruct times; reflexivity.
Qed.

#[local] Arguments for_append : simpl never.

Lemma RequestInformation_unfold (time_file : list string) (st : filter) :
  RequestInformation time_file st =
  bind (build time_file) (fun _ => publish) (with_self cleared st).
Proof.
  destruct st as [[ct ot nu an ini cur] i o fi fo].
  unfold RequestInformation, cleared. run_script.
  destruct ct, ot; reflexivity.
Qed.

Lemma build_Ok (time_file : list string) (st st' : filter) :
  build time_file st = (st', Ok tt) ->
  exists first rest ref_date d t annotation times,
    read_lines time_file = first :: rest /\
    datetime64 first = Ok ref_date /\
    parse_date first = Ok (d, t) /\
    for_append annotation_of (first :: rest) = Ok annotation /\
    for_append (seconds_since ref_date) (first :: rest) = Ok times /\
    Length_TIME_STEPS (in_info st) = List.length times /\
    st' = with_self
            (rebuilt times (native_steps (in_info st)) annotation (units_label d t))
            st.
Proof.
  destruct st as [s i o fi fo]. unfold build.
  destruct (read_lines time_file) as [|first rest] eqn:El; [discriminate|].
  run_script.
  destruct (datetime64 first) as [ref_date|e] eqn:Er; [|discriminate].
  destruct (parse_date first) as [[d t]|e] eqn:Ep; [|discriminate]. cbn.
  destruct (for_append annotation_of (first :: rest)) as [annotation|e] eqn:Ea;
    [|discriminate]. cbn.
  destruct (for_append (seconds_since ref_date) (first :: rest)) as [times|e] eqn:Et;
    [|discriminate]. cbn.
  destruct (Length_TIME_STEPS i =? List.length times) eqn:En; cbn; [|discriminate].
  intros H. inversion H; subst; clear H.
  apply Nat.eqb_eq in En.
  exists first, rest, ref_date, d, t, annotation, times.
  unfold with_self, rebuilt, native_steps. cbn. rewrite En.
  repeat split; assumption.
Qed.

Lemma build_stops_at_count (time_file : list string) (st : filter)
  (first : string) (rest : list string) (ref_date : datetime) (d t : string)
  (annotation : list string) (times : list float) :
  read_lines time_file = first :: rest ->
  datetime64 first = Ok ref_date ->
  parse_date first = Ok (d, t) ->
  for_append annotation_of (first :: rest) = Ok annotation ->
  for_append (seconds_since ref_date) (first :: rest) = Ok times ->
  Length_TIME_STEPS (in_info st) <> List.length times ->
  build time_file st =
    (with_self
       (fun s => set_custom_times_annotation (Some annotation)
                   (set_new_units (Some (units_label d t)) s)) st,
     Raise (count_mismatch (List.length times) (Length_TIME_STEPS (in_info st)))).
Proof.
  destruct st as [s i o fi fo]. intros El Er Ep Ea Et En.
  unfold build. rewrite El. run_script. rewrite Er, Ep. cbn.
  rewrite Ea. cbn. rewrite Et. cbn.
  apply Nat.eqb_neq in En. cbn in En. rewrite En. reflexivity.
Qed.

Lemma for_append_nonempty {A B} (body : A -> result B) (x : A) (l : list A)
  (ys : list B) :
  for_append body (x :: l) = Ok ys -> ys <> [].
Proof.
  intros H. apply for_append_length in H. destruct ys; [discriminate|congruence].
Qed.

Lemma RequestInformation_Ok (time_file : list string) (st st' : filter) :
  RequestInformation time_file st = (st', Ok tt) ->
  exists first rest ref_date d t annotation times,
    read_lines time_file = first :: rest /\
    datetime64 first = Ok ref_date /\
    parse_date first = Ok (d, t) /\
    for_append annotation_of (first :: rest) = Ok annotation /\
    for_append (seconds_since ref_date) (first :: rest) = Ok times /\
    Length_TIME_STEPS (in_info st) = List.length times /\
    st' = {| self := rebuilt times (native_steps (in_info st)) annotation
                       (units_label d t) (self st);
             in_info := in_info st;
             out_info := published times (out_info st);
             input_fd := input_fd st;
             output_fd := output_fd st |}.
Proof.
  rewrite RequestInformation_unfold. unfold bind.
  destruct (build time_file (with_self cleared st)) as [st1 [[]|e]] eqn:Eb;
    [|discriminate].
  apply build_Ok in Eb.
  destruct Eb as (first & rest & ref_date & d & t & annotation & times
                  & El & Er & Ep & Ea & Et & En & ->).
  rewrite (publish_run _ times) by
    (try reflexivity; eapply for_append_nonempty; exact Et).
  intros H. inversion H; subst; clear H.
  exists first, rest, ref_date, d, t, annotation, times.
  destruct st as [s i o fi fo]. cbn in *.
  repeat split; assumption.
Qed.

Lemma RequestInformation_stops_at_count (time_file : list string) (st : filter)
  (first : string) (rest : list string) (ref_date : datetime) (d t : string)
  (annotation : list string) (times : list float) :
  read_lines time_file = first :: rest ->
  datetime64 first = Ok ref_date ->
  parse_date first = Ok (d, t) ->
  for_append annotation_of (first :: rest) = Ok annotation ->
  for_append (seconds_since ref_date) (first :: rest) = Ok times ->
  Length_TIME_STEPS (in_info st) <> List.length times ->
  RequestInformation time_file st =
    (with_self (stopped_at_count annotation (units_label d t)) st,
     Raise (count_mismatch (List.length times) (Length_TIME_STEPS (in_info st)))).
Proof.
  intros El Er Ep Ea Et En.
  rewrite RequestInformation_unfold. unfold bind.
  rewrite (build_stops_at_count time_file _ first rest ref_date d t annotation times)
    by (destruct st; assumption).
  destruct st as [s i o fi fo]. reflexivity.
Qed.

(** *** What the scripts leave alone *)

Ltac break_matches :=
  repeat (cbn;
          match goal with
          | |- context [match ?x with _ => _ end] =>
              lazymatch x with
              | context [match _ with _ => _ end] => fail
              | _ => destruct x
              end
          end);
  cbn.

Lemma RequestUpdateExtent_self (st : filter) :
  let s' := self (fst (RequestUpdateExtent st)) in
  custom_times s' = custom_times (self st) /\
  orig_times s' = orig_times (self st) /\
  custom_times_annotation s' = custom_times_annotation (self st) /\
  new_units s' = new_units (self st).
Proof.
  destruct st as [[ct ot nu an ini cur] i o fi fo].
  unfold RequestUpdateExtent. run_script.
  unfold with_in_info, with_self, getitem.
  break_matches; repeat split; reflexivity.
Qed.

Lemma RequestData_self (st : filter) :
  self (fst (RequestData st)) = self st.
Proof.
  destruct st as [[ct ot nu an ini cur] i o fi fo].
  unfold RequestData. run_script.
  unfold with_output_fd, getitem.
  break_matches; reflexivity.
Qed.

(** *** The session invariant *)

Lemma consistent_same_fields (s s' : self_t) :
  custom_times s' = custom_times s ->
  orig_times s' = orig_times s ->
  custom_times_annotation s' = custom_times_annotation s ->
  new_units s' = new_units s ->
  consistent s -> consistent s'.
Proof.
  intros H1 H2 H3 H4 (times & orig & annotation & units & Hc).
  exists times, orig, annotation, units.
  rewrite H1, H2, H3, H4. exact Hc.
Qed.

Lemma native_steps_length (info : information) :
  List.length (native_steps info) = Length_TIME_STEPS info.
Proof. unfold native_steps. rewrite length_map, length_seq. reflexivity. Qed.

Lemma native_steps_eq (l : list float) (tr : option (list float))
  (up : option float) :
  native_steps {| TIME_STEPS := Some l; TIME_RANGE := tr; UPDATE_TIME_STEP := up |}
  = l.
Proof.
  unfold native_steps, Length_TIME_STEPS, Get_TIME_STEPS. cbn.
  apply nth_error_ext. intros n.
  destruct (Nat.lt_ge_cases n (List.length l)) as [Hlt|Hge].
  - rewrite nth_error_map, nth_error_seq.
    apply Nat.ltb_lt in Hlt as Hltb. rewrite Hltb. cbn.
    symmetry. apply nth_error_nth'. exact Hlt.
  - transitivity (@None float).
    + apply nth_error_None. rewrite length_map, length_seq. exact Hge.
    + symmetry. apply nth_error_None. exact Hge.
Qed.

Lemma zero_lookup_after_build (ref_date : datetime) (first : string)
  (rest : list string) (times : list float) :
  datetime64 first = Ok ref_date ->
  for_append (seconds_since ref_date) (first :: rest) = Ok times ->
  resolve times (Some (fin 0%Q)) = 0.
Proof.
  intros Er Et. destruct ref_date as [|u].
  - apply resolve_absent.
    assert (Hall : Forall (fun y => y = float_of_int int64_min) times).
    { eapply for_append_Forall; [|exact Et].
      intros x y. unfold seconds_since.
      destruct (datetime64 x) as [[|v]|e]; cbn; intros H; inversion H;
        reflexivity. }
    rewrite Forall_forall in Hall. intros y Hy. rewrite (Hall y Hy).
    vm_compute. reflexivity.
  - unfold for_append in Et; fold (@for_append string float) in Et.
    unfold seconds_since at 1 in Et. rewrite Er in Et.
    unfold rbind at 1 2 in Et.
    destruct (for_append (seconds_since (Instant u)) rest) as [ts|e];
      [|discriminate Et].
    unfold rbind, timedelta_seconds in Et. rewrite Z.sub_diag in Et.
    inversion Et; subst times.
    apply (resolve_first _ _ 0 (float_of_int (wrap_int64 0))).
    + reflexivity.
    + vm_compute. reflexivity.
    + intros j y Hj. lia.
Qed.

Lemma built_consistent (time_file : list string) (st st' : filter) :
  RequestInformation time_file st = (st', Ok tt) -> consistent (self st').
Proof.
  intros H. apply RequestInformation_Ok in H.
  destruct H as (first & rest & ref_date & d & t & annotation & times
                 & El & Er & Ep & Ea & Et & En & ->).
  cbn. exists times, (native_steps (in_info st)), annotation, (units_label d t).
  cbn. repeat split.
  - rewrite native_steps_length. exact En.
  - rewrite (for_append_length _ _ _ Ea), (for_append_length _ _ _ Et).
    reflexivity.
  - eapply for_append_nonempty; exact Et.
  - eapply for_append_Forall; [|exact Et].
    intros x y Hy. eapply seconds_since_whole; exact Hy.
  - eapply zero_lookup_after_build; eassumption.
Qed.

Lemma session_consistent (st : filter) : session st -> consistent (self st).
Proof.
  induction 1 as [time_file st st' Hb | t st _ IH | fd st _ IH
                 | st st' idx _ IH Hr | st st' idx _ IH Hr].
  - eapply built_consistent; exact Hb.
  - destruct st; exact IH.
  - destruct st; exact IH.
  - pose proof (RequestUpdateExtent_self st) as Hs. rewrite Hr in Hs.
    cbn in Hs. destruct Hs as (H1 & H2 & H3 & H4).
    eapply consistent_same_fields; eassumption.
  - pose proof (RequestData_self st) as Hs. rewrite Hr in Hs. cbn in Hs.
    rewrite Hs. exact IH.
Qed.

(** *** The two request stages, one after the other *)

Lemma nth_error_in_range {A} (l : list A) (n : nat) :
  n < List.length l -> exists a, nth_error l n = Some a.
Proof.
  intros Hlt. destruct (nth_error l n) as [a|] eqn:E.
  - exists a; reflexivity.
  - apply nth_error_None in E. lia.
Qed.

Lemma two_stages (st : filter) (r : option float) (fd : fielddata) :
  consistent (self st) ->
  exists times orig annotation units t label,
    custom_times (self st) = Some times /\
    orig_times (self st) = Some orig /\
    custom_times_annotation (self st) = Some annotation /\
    new_units (self st) = Some units /\
    nth_error orig (resolve times r) = Some t /\
    nth_error annotation (resolve times r) = Some label /\
    let extent := RequestUpdateExtent (request_time r st) in
    let data := RequestData (deliver_input fd (fst extent)) in
    snd extent = Ok (resolve times r) /\
    snd data = Ok (resolve times r) /\
    UPDATE_TIME_STEP (in_info (fst extent)) = Some t /\
    output_fd (fst data) =
      AddArray (AddArray (remove_time_units fd) (time_units_array units))
        (current_date_array label).
Proof.
  intros (times & orig & annotation & units
          & Hct & Hot & Han & Hun & Hlo & Hla & Hne & _ & Hz).
  pose proof (resolve_lt times r Hne) as Hlt.
  destruct (nth_error_in_range orig (resolve times r)) as [t Ht]; [lia|].
  destruct (nth_error_in_range annotation (resolve times r)) as [label Hl]; [lia|].
  exists times, orig, annotation, units, t, label.
  repeat (split; [assumption|]).
  cbv zeta.
  assert (Hask :
    resolve times (Some (Get_UPDATE_TIME_STEP (out_info (request_time r st))))
    = resolve times r).
  { destruct st as [s i o fi fo]. destruct r as [x|].
    - reflexivity.
    - rewrite resolve_None. exact Hz. }
  rewrite (RequestUpdateExtent_run (request_time r st) times orig t);
    [| destruct st; assumption | destruct st; assumption
     | rewrite Hask; exact Ht].
  cbn [fst snd]. rewrite Hask.
  match goal with
  | |- context [RequestData ?x] =>
      rewrite (RequestData_run x times annotation units label)
  end.
  - assert (Hsel :
      selected
        (self
           (deliver_input fd
              {| self := set_current_requested_custom_time
                           (Some (Some (Get_UPDATE_TIME_STEP
                                          (out_info (request_time r st)))))
                           (self (request_time r st));
                 in_info := Set_UPDATE_TIME_STEP (in_info (request_time r st)) t;
                 out_info := out_info (request_time r st);
                 input_fd := input_fd (request_time r st);
                 output_fd := output_fd (request_time r st) |})) times
      = Some (Get_UPDATE_TIME_STEP (out_info (request_time r st))))
      by reflexivity.
    rewrite Hsel, Hask. destruct st; repeat split; reflexivity.
  - destruct st; assumption.
  - assumption.
  - destruct st; assumption.
  - destruct st; assumption.
  - assert (Hsel :
      selected
        (self
           (deliver_input fd
              {| self := set_current_requested_custom_time
                           (Some (Some (Get_UPDATE_TIME_STEP
                                          (out_info (request_time r st)))))
                           (self (request_time r st));
                 in_info := Set_UPDATE_TIME_STEP (in_info (request_time r st)) t;
                 out_info := out_info (request_time r st);
                 input_fd := input_fd (request_time r st);
                 output_fd := output_fd (request_time r st) |})) times
      = Some (Get_UPDATE_TIME_STEP (out_info (request_time r st))))
      by reflexivity.
    rewrite Hsel, Hask. exact Hl.
Qed.

Lemma deliver_input_same (st : filter) : deliver_input (input_fd st) st = st.
Proof. destruct st; reflexivity. Qed.


Lemma built_session (time_file : list string) (n : nat) :
  snd (RequestInformation time_file (fresh (steps n))) = Ok tt ->
  session (built time_file n).
Proof.
  intros H. apply (session_built time_file (fresh (steps n))).
  unfold built. destruct (RequestInformation time_file (fresh (steps n))).
  cbn in *. rewrite H. reflexivity.
Qed.

(** *** C1: the round trip from a custom time back to its position *)

(** C1, as stated, fails when a custom time occurs twice.  The file lists
    the same instant on two lines; the built timeline is [0.0, 0.0], and
    asking for its element at position 1 selects position 0 in both
    request stages. *)
Lemma roundtrip_fails_on_repeated_time :
  session (built repeated_file 2) /\
  custom_times (self (built repeated_file 2))
    = Some [fin (inject_Z 0); fin (inject_Z 0)] /\
  resolves_to (built repeated_file 2) (fin (inject_Z 0)) 0 /\
  ~ resolves_to (built repeated_file 2) (fin (inject_Z 0)) 1.
Proof.
  split; [apply built_session; vm_compute; reflexivity|].
  split; [vm_compute; reflexivity|].
  split.
  - split; vm_compute; reflexivity.
  - intros [H _]. vm_compute in H. discriminate H.
Qed.

(** C1 (amended): in every session state, asking for the custom time at
    position [i] selects [i] in the extent stage and in the
    materialization stage, provided no earlier position holds an equal
    value; the lookup returns the first position of a value. *)
Theorem roundtrip_first_occurrence
  (st : filter) (times : list float) (i : nat) (t : float) :
  session st ->
  custom_times (self st) = Some times ->
  nth_error times i = Some t ->
  (forall j u, j < i -> nth_error times j = Some u -> float_eq u t = false) ->
  resolves_to st t i.
Proof.
  intros Hs Hct Hnth Hbefore.
  pose proof (session_consistent st Hs) as Hc.
  assert (Hwhole : whole t).
  { destruct Hc as (times' & ? & ? & ? & Hct' & _ & _ & _ & _ & _ & _ & Hw & _).
    rewrite Hct in Hct'. inversion Hct'; subst times'.
    rewrite Forall_forall in Hw. apply Hw.
    eapply nth_error_In; exact Hnth. }
  set (x := fst (RequestUpdateExtent (request_time (Some t) st))).
  destruct (two_stages st (Some t) (input_fd x) Hc)
    as (times' & orig & annotation & units & t' & label
        & Hct' & _ & _ & _ & _ & _ & He & Hd & _).
  rewrite Hct in Hct'. inversion Hct'; subst times'.
  fold x in Hd. rewrite deliver_input_same in Hd.
  assert (Hi : resolve times (Some t) = i).
  { apply (resolve_first times (Some t) i t Hnth).
    - cbn. apply whole_eq_refl; exact Hwhole.
    - intros j u Hj Hu. cbn. eapply Hbefore; eassumption. }
  rewrite Hi in He, Hd. split; assumption.
Qed.

Lemma roundtrip_first_occurrence_witness :
  resolves_to (built hourly_file 3) (fin (inject_Z 7200)) 2.
Proof.
  apply (roundtrip_first_occurrence (built hourly_file 3)
           [fin (inject_Z 0); fin (inject_Z 3600); fin (inject_Z 7200)] 2).
  - apply built_session. vm_compute. reflexivity.
  - vm_compute. reflexivity.
  - reflexivity.
  - intros j u Hj Hu.
    destruct j as [|[|j]]; [| |lia]; inversion Hu; subst; reflexivity.
Defined.

(** *** C3: a custom time that is not on the timeline *)

(** C3: in every session state, asking for a value that equals no element
    of the custom timeline selects position 0 in both request stages, and
    both scripts run to their end. *)
Theorem absent_time_resolves_to_first
  (st : filter) (times : list float) (t : float) :
  session st ->
  custom_times (self st) = Some times ->
  (forall u, In u times -> float_eq u t = false) ->
  resolves_to st t 0.
Proof.
  intros Hs Hct Habsent.
  pose proof (session_consistent st Hs) as Hc.
  set (x := fst (RequestUpdateExtent (request_time (Some t) st))).
  destruct (two_stages st (Some t) (input_fd x) Hc)
    as (times' & orig & annotation & units & t' & label
        & Hct' & _ & _ & _ & _ & _ & He & Hd & _).
  rewrite Hct in Hct'. inversion Hct'; subst times'.
  fold x in Hd. rewrite deliver_input_same in Hd.
  rewrite (resolve_absent times (Some t)) in He, Hd by exact Habsent.
  split; assumption.
Qed.

Lemma absent_time_resolves_to_first_witness :
  resolves_to (built hourly_file 3) (fin (1800 # 1)) 0.
Proof.
  apply (absent_time_resolves_to_first (built hourly_file 3)
           [fin (inject_Z 0); fin (inject_Z 3600); fin (inject_Z 7200)]).
  - apply built_session. vm_compute. reflexivity.
  - vm_compute. reflexivity.
  - intros u [<-|[<-|[<-|[]]]]; reflexivity.
Defined.

(** *** C10: the two request stages select the same position *)



(** *** C9: the three sequences have one length and keep it *)

Lemma run_step_keeps (o : step) (st : filter) :
  custom_times (self (run_step o st)) = custom_times (self st) /\
  orig_times (self (run_step o st)) = orig_times (self st) /\
  custom_times_annotation (self (run_step o st))
    = custom_times_annotation (self st).
Proof.
  destruct o as [t|fd| |]; unfold run_step.
  - destruct st; cbn; auto.
  - destruct st; cbn; auto.
  - destruct (RequestUpdateExtent_self st) as (H1 & H2 & H3 & _). auto.
  - rewrite RequestData_self. auto.
Qed.

Lemma run_steps_keep (ops : list step) (st : filter) :
  custom_times (self (run_steps ops st)) = custom_times (self st) /\
  orig_times (self (run_steps ops st)) = orig_times (self st) /\
  custom_times_annotation (self (run_steps ops st))
    = custom_times_annotation (self st).
Proof.
  unfold run_steps. revert st; induction ops as [|o ops IH]; intros st.
  - cbn. auto.
  - change (fold_left (fun s o => run_step o s) (o :: ops) st)
      with (fold_left (fun s o => run_step o s) ops (run_step o st)).
    destruct (IH (run_step o st)) as (H1 & H2 & H3).
    destruct (run_step_keeps o st) as (K1 & K2 & K3).
    rewrite H1, H2, H3. auto.
Qed.

(** C9: a RequestInformation pass that runs to its end leaves a custom
    timeline, an original timeline and an annotation list that each have
    as many elements as the file has usable lines; whatever sequence of
    requests, deliveries and runs of the two later scripts follows, the
    three sequences stay the same. *)
Theorem timelines_share_length
  (time_file : list string) (st st' : filter) :
  RequestInformation time_file st = (st', Ok tt) ->
  exists times orig annotation,
    List.length times = List.length (read_lines time_file) /\
    List.length orig = List.length (read_lines time_file) /\
    List.length annotation = List.length (read_lines time_file) /\
    forall ops : list step,
      custom_times (self (run_steps ops st')) = Some times /\
      orig_times (self (run_steps ops st')) = Some orig /\
      custom_times_annotation (self (run_steps ops st')) = Some annotation.
Proof.
  intros H. apply RequestInformation_Ok in H.
  destruct H as (first & rest & ref_date & d & t & annotation & times
                 & El & Er & Ep & Ea & Et & En & ->).
  exists times, (native_steps (in_info st)), annotation.
  rewrite El.
  pose proof (for_append_length _ _ _ Ea) as La.
  pose proof (for_append_length _ _ _ Et) as Lt.
  repeat split.
  - exact Lt.
  - rewrite native_steps_length, En. exact Lt.
  - exact La.
  - destruct (run_steps_keep ops
      {| self := rebuilt times (native_steps (in_info st)) annotation
                   (units_label d t) (self st);
         in_info := in_info st;
         out_info := published times (out_info st);
         input_fd := input_fd st;
         output_fd := output_fd st |}) as (H1 & _). rewrite H1. reflexivity.
  - destruct (run_steps_keep ops
      {| self := rebuilt times (native_steps (in_info st)) annotation
                   (units_label d t) (self st);
         in_info := in_info st;
         out_info := published times (out_info st);
         input_fd := input_fd st;
         output_fd := output_fd st |}) as (_ & H2 & _). rewrite H2. reflexivity.
  - destruct (run_steps_keep ops
      {| self := rebuilt times (native_steps (in_info st)) annotation
                   (units_label d t) (self st);
         in_info := in_info st;
         out_info := published times (out_info st);
         input_fd := input_fd st;
         output_fd := output_fd st |}) as (_ & _ & H3). rewrite H3. reflexivity.
Qed.

Lemma timelines_share_length_witness :
  exists times orig annotation,
    List.length times = List.length (read_lines hourly_file) /\
    List.length orig = List.length (read_lines hourly_file) /\
    List.length annotation = List.length (read_lines hourly_file) /\
    forall ops : list step,
      custom_times (self (run_steps ops (built hourly_file 3))) = Some times /\
      orig_times (self (run_steps ops (built hourly_file 3))) = Some orig /\
      custom_times_annotation (self (run_steps ops (built hourly_file 3)))
        = Some annotation.
Proof.
  apply (timelines_share_length hourly_file (fresh (steps 3))).
  vm_compute. reflexivity.
Defined.

(** *** C5: the published time range *)

Lemma last_cons_default {A} (x d d' : A) (l : list A) :
  last (x :: l) d = last (x :: l) d'.
Proof.
  revert x; induction l as [|y l IH]; intros x.
  - reflexivity.
  - change (last (y :: l) d = last (y :: l) d'). apply IH.
Qed.

Lemma nth_error_last {A} (a : A) (l : list A) :
  nth_error (a :: l) (List.length l) = Some (last l a).
Proof.
  revert a; induction l as [|b l IH]; intros a.
  - reflexivity.
  - change (nth_error (a :: b :: l) (List.length (b :: l)))
      with (nth_error (b :: l) (List.length l)).
    rewrite IH. f_equal.
    destruct l as [|c l]; [reflexivity|].
    change (last (b :: c :: l) a) with (last (c :: l) a).
    apply last_cons_default.
Qed.

(** C5, as stated, fails for a file whose dates are not in ascending
    order: the published pair is [0.0, -86400.0] and its lower end does
    not bound the second custom time. *)
Lemma descending_range_does_not_bound :
  RequestInformation descending_file (fresh (steps 2))
    = (built descending_file 2, Ok tt) /\
  custom_times (self (built descending_file 2))
    = Some [fin (inject_Z 0); fin (inject_Z (-86400))] /\
  TIME_RANGE (out_info (built descending_file 2))
    = Some [fin (inject_Z 0); fin (inject_Z (-86400))] /\
  ~ range_bounds_all (built descending_file 2).
Proof.
  split; [vm_compute; reflexivity|].
  split; [vm_compute; reflexivity|].
  split; [vm_compute; reflexivity|].
  intros (lo & hi & Hr & Hb).
  vm_compute in Hr. inversion Hr; subst lo hi; clear Hr.
  destruct (Hb [fin (inject_Z 0); fin (inject_Z (-86400))]
              (fin (inject_Z (-86400)))) as [Hlo _].
  - vm_compute. reflexivity.
  - right. left. reflexivity.
  - vm_compute in Hlo. discriminate Hlo.
Qed.

(** C5 (amended): after a RequestInformation pass that runs to its end,
    the published time steps are the custom timeline and the published
    range is the pair of its first and its last element; when the custom
    timeline never decreases, that pair bounds every element. *)
Theorem range_is_first_and_last
  (time_file : list string) (st st' : filter) :
  RequestInformation time_file st = (st', Ok tt) ->
  exists times lo hi,
    custom_times (self st') = Some times /\
    TIME_STEPS (out_info st') = Some times /\
    nth_error times 0 = Some lo /\
    nth_error times (List.length times - 1) = Some hi /\
    TIME_RANGE (out_info st') = Some [lo; hi] /\
    (non_decreasing times -> range_bounds_all st').
Proof.
  intros H. apply RequestInformation_Ok in H.
  destruct H as (first & rest & ref_date & d & t & annotation & times
                 & El & Er & Ep & Ea & Et & En & ->).
  pose proof (for_append_nonempty _ _ _ _ Et) as Hne.
  destruct times as [|t0 times]; [congruence|].
  assert (Hhi : nth_error (t0 :: times) (List.length (t0 :: times) - 1)
                = Some (last times t0)).
  { replace (List.length (t0 :: times) - 1) with (List.length times)
      by (cbn [List.length]; lia).
    apply nth_error_last. }
  exists (t0 :: times), t0, (last times t0).
  split; [reflexivity|]. split; [reflexivity|]. split; [reflexivity|].
  split; [exact Hhi|].
  split; [destruct times; reflexivity|].
  intros Hmono. exists t0, (last times t0).
  split; [destruct times; reflexivity|].
  intros times' u Hct Hin. cbn in Hct. inversion Hct; subst times'; clear Hct.
  destruct (In_nth_error _ _ Hin) as [k Hk].
  assert (Hlt : k < List.length (t0 :: times))
    by (apply nth_error_Some; rewrite Hk; discriminate).
  split.
  - apply (Hmono 0 k t0 u); [lia | reflexivity | exact Hk].
  - apply (Hmono k (List.length (t0 :: times) - 1) u (last times t0));
      [lia | exact Hk | exact Hhi].
Qed.

Lemma range_is_first_and_last_witness :
  exists times lo hi,
    custom_times (self (built bce_file 2)) = Some times /\
    TIME_STEPS (out_info (built bce_file 2)) = Some times /\
    nth_error times 0 = Some lo /\
    nth_error times (List.length times - 1) = Some hi /\
    TIME_RANGE (out_info (built bce_file 2)) = Some [lo; hi] /\
    (non_decreasing times -> range_bounds_all (built bce_file 2)).
Proof.
  apply (range_is_first_and_last bce_file (fresh (steps 2))).
  vm_compute. reflexivity.
Defined.

(** *** C2: dates before the common era *)








Lemma pow2_52 : (2 ^ 52 = 4503599627370496)%Z.
Proof. reflexivity. Qed.

Lemma float_of_difference (a b : Z) :
  near_epoch a = true -> near_epoch b = true ->
  float_of_int (wrap_int64 (a - b)) = fin (inject_Z (a - b)).
Proof.
  unfold near_epoch. intros Ha Hb.
  apply Z.ltb_lt in Ha. apply Z.ltb_lt in Hb. rewrite pow2_52 in Ha, Hb.
  assert (Hw : wrap_int64 (a - b) = (a - b)%Z).
  { unfold wrap_int64.
    change (2 ^ 63)%Z with 9223372036854775808%Z.
    change (2 ^ 64)%Z with 18446744073709551616%Z.
    rewrite Z.mod_small by lia. lia. }
  rewrite Hw. unfold float_of_int, round_to_double.
  assert (Hs : (Z.abs (a - b) <? 2 ^ 53)%Z = true).
  { apply Z.ltb_lt. change (2 ^ 53)%Z with 9007199254740992%Z. lia. }
  rewrite Hs. reflexivity.
Qed.

Lemma for_append_exact (lines : list string) (us : list Z) (u0 : Z) :
  map datetime64 lines = map (fun u => Ok (Instant u)) us ->
  near_epoch u0 = true ->
  forallb near_epoch us = true ->
  for_append (seconds_since (Instant u0)) lines
    = Ok (map (fun u => fin (inject_Z (u - u0))) us).
Proof.
  intros Hm H0. revert us Hm; induction lines as [|l lines IH]; intros us Hm Hn.
  - destruct us; [reflexivity | discriminate Hm].
  - destruct us as [|u us]; [discriminate Hm|].
    cbn [map] in Hm. injection Hm as Hl Hrest.
    cbn [forallb] in Hn. apply andb_true_iff in Hn. destruct Hn as [Hu Hn].
    unfold for_append; fold (@for_append string float).
    unfold seconds_since at 1. rewrite Hl. unfold rbind at 1 2.
    rewrite (IH us Hrest Hn). unfold timedelta_seconds.
    rewrite (float_of_difference u u0 Hu H0). reflexivity.
Qed.

Lemma custom_times_exact
  (time_file : list string) (st st' : filter) (us : list Z) :
  RequestInformation time_file st = (st', Ok tt) ->
  map datetime64 (read_lines time_file) = map (fun u => Ok (Instant u)) us ->
  forallb near_epoch us = true ->
  custom_times (self st') = Some (exact_durations us).
Proof.
  intros H Hm Hn. apply RequestInformation_Ok in H.
  destruct H as (first & rest & ref_date & d & t & annotation & times
                 & El & Er & Ep & Ea & Et & En & ->).
  rewrite El in Hm. destruct us as [|u0 us]; [discriminate Hm|].
  assert (Href : ref_date = Instant u0).
  { cbn [map] in Hm. injection Hm as Hl _. rewrite Er in Hl.
    inversion Hl. reflexivity. }
  subst ref_date.
  assert (H0 : near_epoch u0 = true).
  { cbn [forallb] in Hn. apply andb_true_iff in Hn. tauto. }
  rewrite (for_append_exact (first :: rest) (u0 :: us) u0 Hm H0 Hn) in Et.
  inversion Et; subst times. reflexivity.
Qed.




(** *** C4: the step-count check *)

Lemma well_formed_annotations (lines : list string) :
  forallb well_formed lines = true ->
  exists annotation, for_append annotation_of lines = Ok annotation.
Proof.
  intros H. apply for_append_total. rewrite forallb_forall in H.
  apply Forall_forall. intros x Hx. specialize (H x Hx).
  unfold well_formed in H. unfold annotation_of.
  destruct (parse_date x) as [[d t]|e]; [|discriminate].
  eexists. reflexivity.
Qed.

Lemma well_formed_times (ref_date : datetime) (lines : list string) :
  forallb well_formed lines = true ->
  exists times, for_append (seconds_since ref_date) lines = Ok times.
Proof.
  intros H. apply for_append_total. rewrite forallb_forall in H.
  apply Forall_forall. intros x Hx. specialize (H x Hx).
  unfold well_formed in H. unfold seconds_since.
  destruct (parse_date x); [|discriminate].
  destruct (datetime64 x); [|discriminate].
  eexists. reflexivity.
Qed.

(** C4, as stated, fails in its last part: with three entries against
    five native steps the pass ends in the exception that reports both
    counts and publishes nothing downstream, but on a filter that held
    nothing before, [self] now holds the unit label and the annotation
    list of the rejected file. *)
Lemma mismatch_leaves_labels_on_self :
  snd (RequestInformation hourly_file (fresh (steps 5)))
    = Raise (count_mismatch 3 5) /\
  nothing_stored (self (fresh (steps 5))) /\
  new_units (self (fst (RequestInformation hourly_file (fresh (steps 5)))))
    = Some "seconds since 2000-01-01 12:00:00"%string /\
  ~ nothing_stored (self (fst (RequestInformation hourly_file (fresh (steps 5))))).
Proof.
  split; [vm_compute; reflexivity|].
  split; [repeat split|].
  split; [vm_compute; reflexivity|].
  intros (_ & _ & _ & H & _). vm_compute in H. discriminate H.
Qed.

(** C4 (amended): when the file has usable lines, each of them is
    accepted by [parse_date] and [np.datetime64], and the number of native
    time steps differs from the number of lines, the pass ends in a
    [ValueError] whose message carries both counts; afterwards [self] has
    no custom timeline and no original timeline, [initialized] is as it
    was, and both information objects are as they were, so nothing was
    published downstream; the unit label and the annotation list computed
    before the check are on [self]. *)
Theorem step_count_mismatch_raises (time_file : list string) (st : filter) :
  read_lines time_file <> [] ->
  forallb well_formed (read_lines time_file) = true ->
  Length_TIME_STEPS (in_info st) <> List.length (read_lines time_file) ->
  exists st' e annotation units,
    RequestInformation time_file st = (st', Raise e) /\
    e = count_mismatch (List.length (read_lines time_file))
          (Length_TIME_STEPS (in_info st)) /\
    class_of e = ValueError /\
    In (Dec (Z.of_nat (List.length (read_lines time_file)))) (message_of e) /\
    In (Dec (Z.of_nat (Length_TIME_STEPS (in_info st)))) (message_of e) /\
    custom_times (self st') = None /\
    orig_times (self st') = None /\
    initialized (self st') = initialized (self st) /\
    in_info st' = in_info st /\
    out_info st' = out_info st /\
    for_append annotation_of (read_lines time_file) = Ok annotation /\
    custom_times_annotation (self st') = Some annotation /\
    new_units (self st') = Some units.
Proof.
  intros Hne Hwf Hn.
  destruct (read_lines time_file) as [|first rest] eqn:El; [congruence|].
  destruct (well_formed_annotations _ Hwf) as [annotation Ha].
  assert (Hfirst : well_formed first = true).
  { cbn in Hwf. apply andb_true_iff in Hwf. tauto. }
  unfold well_formed in Hfirst.
  destruct (parse_date first) as [[d t]|] eqn:Ep; [|discriminate].
  destruct (datetime64 first) as [ref_date|] eqn:Er; [|discriminate].
  destruct (well_formed_times ref_date _ Hwf) as [times Ht].
  pose proof (for_append_length _ _ _ Ht) as Lt.
  rewrite <- Lt in Hn.
  exists (with_self (stopped_at_count annotation (units_label d t)) st),
    (count_mismatch (List.length times) (Length_TIME_STEPS (in_info st))),
    annotation, (units_label d t).
  split.
  - apply (RequestInformation_stops_at_count time_file st first rest ref_date
             d t annotation times); assumption.
  - rewrite <- Lt. destruct st as [s i o fi fo]. cbn.
    repeat split; cbn; auto.
Qed.

Lemma step_count_mismatch_raises_witness :
  exists st' e annotation units,
    RequestInformation hourly_file (fresh (steps 5)) = (st', Raise e) /\
    e = count_mismatch (List.length (read_lines hourly_file))
          (Length_TIME_STEPS (in_info (fresh (steps 5)))) /\
    class_of e = ValueError /\
    In (Dec (Z.of_nat (List.length (read_lines hourly_file)))) (message_of e) /\
    In (Dec (Z.of_nat (Length_TIME_STEPS (in_info (fresh (steps 5))))))
      (message_of e) /\
    custom_times (self st') = None /\
    orig_times (self st') = None /\
    initialized (self st') = initialized (self (fresh (steps 5))) /\
    in_info st' = in_info (fresh (steps 5)) /\
    out_info st' = out_info (fresh (steps 5)) /\
    for_append annotation_of (read_lines hourly_file) = Ok annotation /\
    custom_times_annotation (self st') = Some annotation /\
    new_units (self st') = Some units.
Proof.
  apply (step_count_mismatch_raises hourly_file (fresh (steps 5))).
  - vm_compute. discriminate.
  - vm_compute. reflexivity.
  - vm_compute. lia.
Defined.

(** *** C6: which lines of the file become entries *)

Lemma read_lines_In (time_file : list string) (l : string) :
  In l (read_lines time_file) <->
  exists raw, In raw time_file /\ l = strip raw /\
              truthy (strip raw) = true /\ startswith raw "#" = false.
Proof.
  unfold read_lines. rewrite in_map_iff. split.
  - intros (raw & <- & Hin). apply filter_In in Hin. destruct Hin as [Hin Hc].
    apply andb_true_iff in Hc. destruct Hc as [Ht Hs].
    apply negb_true_iff in Hs. exists raw. auto.
  - intros (raw & Hin & -> & Ht & Hs). exists raw. split; [reflexivity|].
    apply filter_In. split; [exact Hin|]. rewrite Ht, Hs. reflexivity.
Qed.

(** C6 (the defect): the comment test looks at the raw line, not at the
    stripped one.  A comment line that starts with blanks is kept, is
    stripped to a text starting with [#], and reaches [parse_date], which
    ends the pass with an exception; a comment in the first column is
    dropped. *)
Theorem indented_comment_reaches_parsing :
  read_lines indented_comment_file
    = ["2000-01-01T00:00:00"; "# second step"]%string /\
  snd (RequestInformation indented_comment_file (fresh (steps 2)))
    = Raise (Exn ValueError
               [Lit "Invalid format, no 'T' separator: "%string;
                Repr "# second step"%string]) /\
  read_lines commented_file = ["2000-01-01T12:00:00"%string].
Proof.
  repeat split; vm_compute; reflexivity.
Qed.

(** *** C7: the unit label *)

Lemma split1_two (sep : ascii) (s a b : string) :
  split1 sep s = [a; b] -> s = (a ++ String sep b)%string.
Proof.
  revert a b; induction s as [|c s IH]; intros a b; cbn.
  - discriminate.
  - destruct (Ascii.eqb c sep) eqn:E.
    + apply Ascii.eqb_eq in E. subst c.
      intros H; inversion H; subst. reflexivity.
    + destruct (split1 sep s) as [|x [|y [|z rest]]]; try discriminate.
      intros H; inversion H; subst. cbn. f_equal. apply IH. reflexivity.
Qed.

Lemma parse_date_Ok (s d t : string) :
  parse_date s = Ok (d, t) ->
  s = (d ++ "T" ++ t)%string /\ truthy d = true /\ truthy t = true.
Proof.
  unfold parse_date.
  destruct (negb (contains "T" s)); [discriminate|].
  destruct (split1 "T" s) as [|a [|b [|c rest]]] eqn:E; try discriminate.
  destruct (truthy a) eqn:Ta; destruct (truthy b) eqn:Tb; cbn; try discriminate.
  intros H; inversion H; subst.
  split; [|split; assumption].
  apply split1_two in E. exact E.
Qed.

#[local] Arguments publish : simpl never.

Lemma RequestInformation_new_units (time_file : list string) (st : filter)
  (first : string) (rest : list string) (ref_date : datetime) (d t : string) :
  read_lines time_file = first :: rest ->
  datetime64 first = Ok ref_date ->
  parse_date first = Ok (d, t) ->
  new_units (self (fst (RequestInformation time_file st)))
    = Some (units_label d t).
Proof.
  intros El Er Ep. rewrite RequestInformation_unfold.
  unfold bind, build. rewrite El. run_script. rewrite Er, Ep. cbn.
  destruct (for_append annotation_of (first :: rest)) as [annotation|e];
    cbn; [|reflexivity].
  destruct (for_append (seconds_since ref_date) (first :: rest))
    as [times|e] eqn:Et; cbn; [|reflexivity].
  destruct (Length_TIME_STEPS (in_info st) =? List.length times); cbn;
    [|reflexivity].
  rewrite (publish_run _ times);
    [reflexivity | reflexivity | eapply for_append_nonempty; exact Et].
Qed.

(** C7: the unit label is put together from the text of the reference
    line.  Whenever the first usable line is accepted by [np.datetime64]
    and splits at its first [T] into [d] and [t], the label left on
    [self] is ["seconds since " ++ d ++ " " ++ t], whatever happens later
    in the pass; for the reference line [2000-01-01T12:00:00] it is
    [seconds since 2000-01-01 12:00:00]. *)
Theorem units_label_is_raw_text
  (time_file : list string) (st : filter) (first : string) (rest : list string) :
  read_lines time_file = first :: rest ->
  (forall ref_date d t,
     datetime64 first = Ok ref_date ->
     parse_date first = Ok (d, t) ->
     first = (d ++ "T" ++ t)%string /\
     new_units (self (fst (RequestInformation time_file st)))
       = Some ("seconds since " ++ d ++ " " ++ t)%string) /\
  (first = "2000-01-01T12:00:00"%string ->
   new_units (self (fst (RequestInformation time_file st)))
     = Some "seconds since 2000-01-01 12:00:00"%string).
Proof.
  intros El. split.
  - intros ref_date d t Er Ep. split.
    + apply parse_date_Ok in Ep. tauto.
    + apply (RequestInformation_new_units time_file st first rest ref_date d t);
        assumption.
  - intros ->.
    apply (RequestInformation_new_units time_file st
             "2000-01-01T12:00:00" rest
             (Instant 946728000) "2000-01-01" "12:00:00");
      [exact El | vm_compute; reflexivity | vm_compute; reflexivity].
Qed.

Lemma units_label_is_raw_text_witness :
  (forall ref_date d t,
     datetime64 "2000-01-01T12:00:00" = Ok ref_date ->
     parse_date "2000-01-01T12:00:00" = Ok (d, t) ->
     "2000-01-01T12:00:00"%string = (d ++ "T" ++ t)%string /\
     new_units (self (fst (RequestInformation commented_file (fresh (steps 1)))))
       = Some ("seconds since " ++ d ++ " " ++ t)%string) /\
  ("2000-01-01T12:00:00"%string = "2000-01-01T12:00:00"%string ->
   new_units (self (fst (RequestInformation commented_file (fresh (steps 1)))))
     = Some "seconds since 2000-01-01 12:00:00"%string).
Proof.
  apply (units_label_is_raw_text commented_file (fresh (steps 1))
           "2000-01-01T12:00:00" []).
  vm_compute. reflexivity.
Defined.

(** *** C8: units attributes of the original source *)

Lemma flat_map_by_index {A B} (g : option A -> list B) (l pre : list A) :
  flat_map (fun i => g (nth_error (pre ++ l) i))
    (seq (List.length pre) (List.length l))
  = flat_map (fun a => g (Some a)) l.
Proof.
  revert pre; induction l as [|a l IH]; intros pre.
  - reflexivity.
  - change (seq (List.length pre) (List.length (a :: l)))
      with (List.length pre :: seq (S (List.length pre)) (List.length l)).
    change (flat_map (fun a0 => g (Some a0)) (a :: l))
      with (g (Some a) ++ flat_map (fun a0 => g (Some a0)) l).
    rewrite <- (IH (pre ++ [a])).
    rewrite length_app, Nat.add_1_r. rewrite <- app_assoc.
    change (flat_map ?f (?x :: ?r)) with (f x ++ flat_map f r).
    cbv beta. rewrite nth_error_app2 by lia. rewrite Nat.sub_diag.
    reflexivity.
Qed.

Lemma arrays_to_remove_names (fd : fielddata) :
  arrays_to_remove fd = stale_names fd.
Proof.
  unfold arrays_to_remove, stale_names, GetNumberOfArrays, GetArrayName.
  apply (flat_map_by_index
           (fun o : option array =>
              match match o with Some a => name a | None => None end with
              | Some n => if is_time_units (Some n) then [n] else []
              | None => []
              end) fd []).
Qed.

Lemma has_name_stale (n : string) (a : array) :
  has_name n a = true -> stale a = is_time_units (Some n).
Proof.
  unfold has_name, stale. destruct (name a) as [m|]; [|discriminate].
  intros H. apply String.eqb_eq in H. subst m. reflexivity.
Qed.

Lemma stale_names_selected (fd : fielddata) (n : string) :
  In n (stale_names fd) -> is_time_units (Some n) = true.
Proof.
  unfold stale_names. rewrite in_flat_map. intros (a & _ & Hn).
  destruct (name a) as [m|]; [|destruct Hn].
  destruct (is_time_units (Some m)) eqn:E; [|destruct Hn].
  destruct Hn as [<-|[]]. exact E.
Qed.

Lemma fold_remove_skip (a : array) (names : list string) (fd : fielddata) :
  (forall n, In n names -> has_name n a = false) ->
  fold_left RemoveArray names (a :: fd) = a :: fold_left RemoveArray names fd.
Proof.
  revert fd; induction names as [|n names IH]; intros fd Hskip.
  - reflexivity.
  - change (fold_left RemoveArray (n :: names) (a :: fd))
      with (fold_left RemoveArray names (RemoveArray (a :: fd) n)).
    change (RemoveArray (a :: fd) n)
      with (if has_name n a then fd else a :: RemoveArray fd n).
    rewrite (Hskip n) by (left; reflexivity).
    rewrite IH by (intros m Hm; apply Hskip; right; exact Hm).
    reflexivity.
Qed.

Lemma remove_time_units_filter (fd : fielddata) :
  remove_time_units fd = List.filter (fun a => negb (stale a)) fd.
Proof.
  unfold remove_time_units. rewrite arrays_to_remove_names.
  induction fd as [|a fd IH].
  - reflexivity.
  - change (List.filter (fun a => negb (stale a)) (a :: fd))
      with (if negb (stale a) then a :: List.filter (fun a => negb (stale a)) fd
            else List.filter (fun a => negb (stale a)) fd).
    unfold stale_names.
    change (flat_map ?f (a :: fd)) with (f a ++ flat_map f fd).
    fold (stale_names fd).
    destruct (stale a) eqn:Es.
    + unfold stale in Es. destruct (name a) as [n|] eqn:En; [|discriminate Es].
      rewrite Es.
      change ([n] ++ stale_names fd) with (n :: stale_names fd).
      change (fold_left RemoveArray (n :: stale_names fd) (a :: fd))
        with (fold_left RemoveArray (stale_names fd) (RemoveArray (a :: fd) n)).
      change (RemoveArray (a :: fd) n)
        with (if has_name n a then fd else a :: RemoveArray fd n).
      unfold has_name. rewrite En, String.eqb_refl. exact IH.
    + assert (Hnil :
        match name a with
        | Some n => if is_time_units (Some n) then [n] else []
        | None => []
        end = []).
      { unfold stale in Es. destruct (name a); [rewrite Es|]; reflexivity. }
      rewrite Hnil. change ([] ++ stale_names fd) with (stale_names fd).
      rewrite fold_remove_skip.
      * rewrite IH. reflexivity.
      * intros n Hn. destruct (has_name n a) eqn:Eh; [|reflexivity].
        apply has_name_stale in Eh.
        rewrite (stale_names_selected fd n Hn) in Eh. congruence.
Qed.

Lemma In_replace_named (n : string) (x a : array) (fd : fielddata) :
  In a (replace_named n x fd) -> a = x \/ In a fd.
Proof.
  induction fd as [|b fd IH]; cbn.
  - intros [<-|[]]. left; reflexivity.
  - destruct (has_name n b).
    + intros [<-|H]; [left; reflexivity | right; right; exact H].
    + intros [<-|H]; [right; left; reflexivity|].
      destruct (IH H) as [->|H']; [left; reflexivity | right; right; exact H'].
Qed.

Lemma In_AddArray (fd : fielddata) (x a : array) :
  In a (AddArray fd x) -> a = x \/ In a fd.
Proof.
  unfold AddArray. destruct (name x) as [n|].
  - apply In_replace_named.
  - intros H. apply in_app_or in H. destruct H as [H|[<-|[]]]; auto.
Qed.

Lemma In_replace_named_old (n : string) (x a : array) (fd : fielddata) :
  In a fd -> has_name n a = false -> In a (replace_named n x fd).
Proof.
  induction fd as [|b fd IH]; cbn.
  - intros [].
  - intros [->|H] Hn.
    + rewrite Hn. left; reflexivity.
    + destruct (has_name n b); right; [exact H | apply IH; assumption].
Qed.

Lemma In_AddArray_old (fd : fielddata) (x a : array) (n : string) :
  name x = Some n -> In a fd -> has_name n a = false -> In a (AddArray fd x).
Proof.
  intros Hx Hin Hn. unfold AddArray. rewrite Hx.
  apply In_replace_named_old; assumption.
Qed.

Lemma RequestData_cases (st : filter) :
  match RequestData st with
  | (st', Ok _) =>
      exists units label,
        new_units (self st) = Some units /\
        output_fd st' =
          AddArray
            (AddArray (remove_time_units (input_fd st)) (time_units_array units))
            (current_date_array label)
  | (_, Raise _) => True
  end.
Proof.
  destruct st as [[ct ot nu an ini cur] i o fi fo].
  unfold RequestData. run_script.
  unfold with_output_fd, getitem.
  break_matches; try exact I; eexists; eexists; split; reflexivity.
Qed.

Lemma replace_named_absent (n : string) (x : array) (fd : fielddata) :
  (forall a, In a fd -> has_name n a = false) ->
  replace_named n x fd = fd ++ [x].
Proof.
  induction fd as [|b fd IH]; intros Habs.
  - reflexivity.
  - cbn. rewrite (Habs b) by (left; reflexivity).
    rewrite IH by (intros a Ha; apply Habs; right; exact Ha). reflexivity.
Qed.

Lemma filter_stale_replace_named (n : string) (x : array) (fd : fielddata) :
  stale x = false ->
  is_time_units (Some n) = false ->
  List.filter stale (replace_named n x fd) = List.filter stale fd.
Proof.
  intros Hx Hn. induction fd as [|b fd IH]; cbn.
  - rewrite Hx. reflexivity.
  - destruct (has_name n b) eqn:Eb; cbn.
    + apply has_name_stale in Eb. rewrite Hx, Eb, Hn. reflexivity.
    + rewrite IH. reflexivity.
Qed.

Lemma filter_stale_removed (fd : fielddata) :
  List.filter stale (List.filter (fun a => negb (stale a)) fd) = [].
Proof.
  induction fd as [|a fd IH]; cbn.
  - reflexivity.
  - destruct (stale a) eqn:E; cbn; [exact IH|]. rewrite E. exact IH.
Qed.

(** [str.lower] folds exactly the two cases of a small ASCII letter onto
    it. *)
Ltac fold_cases c :=
  split;
  [ destruct c as [[] [] [] [] [] [] [] []]; vm_compute; intros H;
    try discriminate H; auto
  | intros [->| ->]; reflexivity ].

Lemma lower_char_t (c : ascii) : lower_char c = "t"%char <-> same_letter "t" c.
Proof. fold_cases c. Qed.

Lemma lower_char_i (c : ascii) : lower_char c = "i"%char <-> same_letter "i" c.
Proof. fold_cases c. Qed.

Lemma lower_char_m (c : ascii) : lower_char c = "m"%char <-> same_letter "m" c.
Proof. fold_cases c. Qed.

Lemma lower_char_e (c : ascii) : lower_char c = "e"%char <-> same_letter "e" c.
Proof. fold_cases c. Qed.

Lemma lower_char_u (c : ascii) : lower_char c = "u"%char <-> same_letter "u" c.
Proof. fold_cases c. Qed.

Lemma lower_char_n (c : ascii) : lower_char c = "n"%char <-> same_letter "n" c.
Proof. fold_cases c. Qed.

Lemma lower_char_s (c : ascii) : lower_char c = "s"%char <-> same_letter "s" c.
Proof. fold_cases c. Qed.

Lemma prefix_empty (s : string) : String.prefix "" s = true.
Proof. destruct s; reflexivity. Qed.

Lemma prefix_lower_ci (word s : string) :
  every_char (fun x => forall c, lower_char c = x <-> same_letter x c) word ->
  String.prefix word (lower s) = true <-> starts_with_ci word s.
Proof.
  revert s; induction word as [|x word IH]; intros s Hw.
  - rewrite prefix_empty. cbn. tauto.
  - destruct Hw as [Hx Hw]. destruct s as [|c s]; cbn.
    + split; [discriminate | tauto].
    + destruct (ascii_dec x (lower_char c)) as [E|E].
      * rewrite (IH s Hw). split.
        -- intros H. split; [apply Hx; congruence | exact H].
        -- tauto.
      * split; [discriminate|]. intros [Hc _]. apply Hx in Hc. congruence.
Qed.

Lemma contains_lower_ci (word s : string) :
  every_char (fun x => forall c, lower_char c = x <-> same_letter x c) word ->
  contains word (lower s) = true <-> occurs_ci word s.
Proof.
  intros Hw. induction s as [|c s IH].
  - cbn [lower contains]. rewrite orb_false_r.
    change EmptyString with (lower EmptyString) at 1.
    rewrite (prefix_lower_ci word EmptyString Hw). split.
    + intros H. exists EmptyString, EmptyString. split; [reflexivity | exact H].
    + intros (before & rest & E & H).
      destruct before; [|discriminate E]. cbn in E. subst rest. exact H.
  - cbn [lower contains].
    change (String (lower_char c) (lower s)) with (lower (String c s)).
    rewrite orb_true_iff, (prefix_lower_ci word (String c s) Hw), IH. split.
    + intros [H|(before & rest & E & H)].
      * exists EmptyString, (String c s). split; [reflexivity | exact H].
      * exists (String c before), rest. split; [cbn; rewrite E; reflexivity | exact H].
    + intros (before & rest & E & H). destruct before as [|b before].
      * cbn in E. subst rest. left. exact H.
      * cbn in E. injection E as _ E. right.
        exists before, rest. split; [exact E | exact H].
Qed.

(** The test of line 183 selects exactly the arrays that have a name
    containing both words case-insensitively. *)
Lemma stale_iff_named (a : array) :
  stale a = true <-> names_time_and_units a.
Proof.
  assert (Ht : forall n, contains "time" (lower n) = true <-> occurs_ci "time" n).
  { intros n. apply contains_lower_ci. cbn.
    split; [exact lower_char_t|]. split; [exact lower_char_i|].
    split; [exact lower_char_m|]. split; [exact lower_char_e|]. exact I. }
  assert (Hu : forall n, contains "units" (lower n) = true <-> occurs_ci "units" n).
  { intros n. apply contains_lower_ci. cbn.
    split; [exact lower_char_u|]. split; [exact lower_char_n|].
    split; [exact lower_char_i|]. split; [exact lower_char_t|].
    split; [exact lower_char_s|]. exact I. }
  unfold stale, names_time_and_units, is_time_units.
  destruct (name a) as [n|].
  - rewrite andb_true_iff, Ht, Hu. split.
    + intros [H1 H2]. exists n. auto.
    + intros (m & E & H1 & H2). inversion E; subst m. auto.
  - split; [discriminate|]. intros (m & E & _). discriminate E.
Qed.

(** C8: when the RequestData script runs to its end, the removal loop has
    taken away exactly the arrays whose name contains both [time] and
    [units] in any mix of letter cases (the script's test selects exactly
    those) and kept the others in their order; the output then holds one
    such array and no more, the new [time_units] array with the stored
    unit label as its single value; every other array of the input not
    called [current_date] is on the output. *)
Theorem stale_units_do_not_survive (st st' : filter) (idx : nat) :
  RequestData st = (st', Ok idx) ->
  exists units,
    new_units (self st) = Some units /\
    (forall a, stale a = true <-> names_time_and_units a) /\
    (forall a, In a (remove_time_units (input_fd st)) <->
               In a (input_fd st) /\ ~ names_time_and_units a) /\
    (forall a, In a (output_fd st') -> names_time_and_units a ->
               a = {| name := Some "time_units"%string;
                      payload := Strings [units] |}) /\
    In {| name := Some "time_units"%string; payload := Strings [units] |}
      (output_fd st') /\
    (forall a, In a (input_fd st) -> ~ names_time_and_units a ->
               has_name "current_date" a = false -> In a (output_fd st')) /\
    remove_time_units (input_fd st)
      = List.filter (fun a => negb (stale a)) (input_fd st) /\
    List.filter stale (output_fd st')
      = [ {| name := Some "time_units"%string; payload := Strings [units] |} ] /\
    (forall a, In a (output_fd st') -> stale a = true ->
               a = time_units_array units) /\
    (forall a, In a (input_fd st) -> stale a = false ->
               has_name "current_date" a = false -> In a (output_fd st')).
Proof.
  intros H. pose proof (RequestData_cases st) as Hc. rewrite H in Hc.
  destruct Hc as (units & label & Hu & Hout).
  exists units. split; [exact Hu|].
  split; [exact stale_iff_named|].
  rewrite remove_time_units_filter in Hout.
  set (kept := List.filter (fun a => negb (stale a)) (input_fd st)) in *.
  assert (Hkept : forall a, In a kept -> has_name "time_units" a = false).
  { intros a Ha. apply filter_In in Ha. destruct Ha as [_ Hs].
    apply negb_true_iff in Hs.
    destruct (has_name "time_units" a) eqn:E; [|reflexivity].
    apply has_name_stale in E. rewrite Hs in E. vm_compute in E. discriminate E. }
  assert (Hfilter : List.filter stale (output_fd st') = [time_units_array units]).
  { rewrite Hout.
    change (AddArray ?fd (current_date_array label))
      with (replace_named "current_date" (current_date_array label) fd).
    rewrite filter_stale_replace_named by reflexivity.
    change (AddArray kept (time_units_array units))
      with (replace_named "time_units" (time_units_array units) kept).
    rewrite (replace_named_absent _ _ _ Hkept).
    rewrite filter_app. unfold kept. rewrite filter_stale_removed.
    reflexivity. }
  assert (Hstale_out : forall a, In a (output_fd st') -> stale a = true ->
                                 a = time_units_array units).
  { intros a Ha Hs.
    assert (Hin : In a (List.filter stale (output_fd st')))
      by (apply filter_In; split; assumption).
    rewrite Hfilter in Hin. destruct Hin as [<-|[]]. reflexivity. }
  assert (Hkeep : forall a, In a (input_fd st) -> stale a = false ->
                            has_name "current_date" a = false ->
                            In a (output_fd st')).
  { intros a Ha Hs Hcd. rewrite Hout.
    apply (In_AddArray_old _ _ _ "current_date"); [reflexivity| |exact Hcd].
    apply (In_AddArray_old _ _ _ "time_units"); [reflexivity| |].
    + apply filter_In. split; [exact Ha|]. rewrite Hs. reflexivity.
    + destruct (has_name "time_units" a) eqn:E; [|reflexivity].
      apply has_name_stale in E. rewrite Hs in E. vm_compute in E. discriminate E. }
  assert (Hnot : forall a, ~ names_time_and_units a <-> stale a = false).
  { intros a. rewrite <- stale_iff_named. destruct (stale a); split;
      congruence. }
  split.
  { intros a. rewrite remove_time_units_filter. fold kept. unfold kept.
    rewrite filter_In, Hnot, negb_true_iff. tauto. }
  split.
  { intros a Ha Hn. apply Hstale_out; [exact Ha | apply stale_iff_named; exact Hn]. }
  split.
  { assert (Hin : In (time_units_array units)
                    (List.filter stale (output_fd st')))
      by (rewrite Hfilter; left; reflexivity).
    apply filter_In in Hin. exact (proj1 Hin). }
  split.
  { intros a Ha Hn Hcd. apply Hkeep; [exact Ha | apply Hnot; exact Hn | exact Hcd]. }
  split; [apply remove_time_units_filter|].
  split; [exact Hfilter|].
  split; [exact Hstale_out | exact Hkeep].
Qed.

Lemma stale_units_do_not_survive_witness :
  exists units,
    new_units (self (deliver_input source_fd (built hourly_file 3))) = Some units /\
    (forall a, stale a = true <-> names_time_and_units a) /\
    (forall a,
       In a (remove_time_units
               (input_fd (deliver_input source_fd (built hourly_file 3)))) <->
       In a (input_fd (deliver_input source_fd (built hourly_file 3))) /\
       ~ names_time_and_units a) /\
    (forall a,
       In a (output_fd
               (fst (RequestData (deliver_input source_fd (built hourly_file 3))))) ->
       names_time_and_units a ->
       a = {| name := Some "time_units"%string; payload := Strings [units] |}) /\
    In {| name := Some "time_units"%string; payload := Strings [units] |}
      (output_fd
         (fst (RequestData (deliver_input source_fd (built hourly_file 3))))) /\
    (forall a,
       In a (input_fd (deliver_input source_fd (built hourly_file 3))) ->
       ~ names_time_and_units a ->
       has_name "current_date" a = false ->
       In a (output_fd
               (fst (RequestData (deliver_input source_fd (built hourly_file 3)))))) /\
    remove_time_units (input_fd (deliver_input source_fd (built hourly_file 3)))
      = List.filter (fun a => negb (stale a))
          (input_fd (deliver_input source_fd (built hourly_file 3))) /\
    List.filter stale
      (output_fd (fst (RequestData (deliver_input source_fd (built hourly_file 3)))))
      = [ {| name := Some "time_units"%string; payload := Strings [units] |} ] /\
    (forall a,
       In a (output_fd
               (fst (RequestData (deliver_input source_fd (built hourly_file 3))))) ->
       stale a = true -> a = time_units_array units) /\
    (forall a,
       In a (input_fd (deliver_input source_fd (built hourly_file 3))) ->
       stale a = false -> has_name "current_date" a = false ->
       In a (output_fd
               (fst (RequestData (deliver_input source_fd (built hourly_file 3)))))).
Proof.
  apply (stale_units_do_not_survive
           (deliver_input source_fd (built hourly_file 3))
           (fst (RequestData (deliver_input source_fd (built hourly_file 3))))
           0).
  vm_compute. reflexivity.
Defined.

(** ** Further properties of the scripts *)

(** *** [parse_date] *)

Lemma contains_char_app (c : ascii) (d t : string) :
  contains (String c "") (d ++ String c t) = true.
Proof.
  induction d as [|x d IH]; cbn.
  - destruct (ascii_dec c c); [destruct t; reflexivity | congruence].
  - rewrite IH. apply orb_true_r.
Qed.

Lemma contains_char_cons (c x : ascii) (s : string) :
  contains (String c "") (String x s) = false ->
  Ascii.eqb x c = false /\ contains (String c "") s = false.
Proof.
  cbn. intros H. apply orb_false_iff in H. destruct H as [Hp Hc].
  split; [|exact Hc].
  destruct (ascii_dec c x) as [->|Hne]; [destruct s; discriminate Hp|].
  apply Ascii.eqb_neq. congruence.
Qed.

Lemma split1_app (c : ascii) (d t : string) :
  contains (String c "") d = false ->
  split1 c (d ++ String c t) = [d; t].
Proof.
  induction d as [|x d IH]; intros Hd.
  - cbn. rewrite Ascii.eqb_refl. reflexivity.
  - apply contains_char_cons in Hd. destruct Hd as [Hx Hd].
    cbn. rewrite Hx, (IH Hd). reflexivity.
Qed.

Lemma split1_two_no_sep (sep : ascii) (s a b : string) :
  split1 sep s = [a; b] -> contains (String sep "") a = false.
Proof.
  revert a b; induction s as [|c s IH]; intros a b; cbn.
  - discriminate.
  - destruct (Ascii.eqb c sep) eqn:E.
    + intros H; inversion H; subst. reflexivity.
    + destruct (split1 sep s) as [|x [|y [|z rest]]] eqn:Es; try discriminate.
      intros H; inversion H; subst. cbn.
      rewrite (IH x b eq_refl).
      apply Ascii.eqb_neq in E.
      destruct (ascii_dec sep c) as [->|Hne]; [congruence | reflexivity].
Qed.

Lemma split1_found (sep : ascii) (s : string) :
  contains (String sep "") s = true -> exists a b, split1 sep s = [a; b].
Proof.
  induction s as [|c s IH]; cbn.
  - discriminate.
  - destruct (Ascii.eqb c sep) eqn:E.
    + intros _. eexists. eexists. reflexivity.
    + apply Ascii.eqb_neq in E.
      destruct (ascii_dec sep c) as [->|Hne]; [congruence|]. cbn.
      intros H. destruct (IH H) as (a & b & ->). eexists. eexists. reflexivity.
Qed.

Lemma truthy_true (s : string) : truthy s = true <-> s <> EmptyString.
Proof. destruct s; cbn; split; congruence. Qed.

(** X2: [parse_date] returns the two parts of a text exactly when the
    text is a non-empty date part without [T], one [T], and a non-empty
    time part; the split is at the first [T], and putting the parts back
    around a [T] gives the text. *)
Theorem parse_date_splits_at_first_T (s d t : string) :
  parse_date s = Ok (d, t) <->
  splits_as s d t /\ d <> EmptyString /\ t <> EmptyString.
Proof.
  unfold splits_as. split.
  - intros H. pose proof (parse_date_Ok s d t H) as (Hs & Hd & Ht).
    assert (Hno : contains "T" d = false).
    { unfold parse_date in H.
      destruct (negb (contains "T" s)); [discriminate|].
      destruct (split1 "T" s) as [|a [|b [|c rest]]] eqn:E; try discriminate.
      destruct (negb (truthy a) || negb (truthy b)); [discriminate|].
      injection H as Ha Hb. rewrite Ha in E.
      eapply split1_two_no_sep; exact E. }
    repeat split.
    + exact Hs.
    + exact Hno.
    + apply truthy_true; exact Hd.
    + apply truthy_true; exact Ht.
  - intros ((-> & Hd) & Hne & Hte).
    apply truthy_true in Hne. apply truthy_true in Hte.
    unfold parse_date.
    change (d ++ "T" ++ t)%string with (d ++ String "T" t)%string.
    rewrite contains_char_app. cbn [negb].
    rewrite (split1_app "T" d t Hd). rewrite Hne, Hte. reflexivity.
Qed.

(** X3: when [parse_date] raises, the exception is a [ValueError]: either
    the text has no [T] and the message echoes the stripped text, or the
    text splits at its first [T] into parts of which one is empty and the
    message echoes the text and both parts. *)
Theorem parse_date_rejects (s : string) (e : exn) :
  parse_date s = Raise e ->
  class_of e = ValueError /\
  ((contains "T" s = false /\
    message_of e
      = [Lit "Invalid format, no 'T' separator: "%string; Repr (strip s)]) \/
   (exists d t,
      splits_as s d t /\ (d = EmptyString \/ t = EmptyString) /\
      message_of e
        = [Lit "Incomplete date-time string: "%string; Repr s;
           Lit " ? date="%string; Repr d; Lit ", time="%string; Repr t])).
Proof.
  unfold parse_date, splits_as.
  destruct (contains "T" s) eqn:Ec; cbn [negb].
  - destruct (split1_found "T" s Ec) as (a & b & E). rewrite E.
    destruct (truthy a) eqn:Ta; destruct (truthy b) eqn:Tb; cbn;
      try discriminate;
      intros H; inversion H; subst; cbn; (split; [reflexivity|]); right;
      exists a, b;
      (split; [split; [apply split1_two in E; exact E
                      | eapply split1_two_no_sep; exact E]|]);
      (split; [|reflexivity]).
    + right. destruct b; [reflexivity | discriminate].
    + left. destruct a; [reflexivity | discriminate].
    + left. destruct a; [reflexivity | discriminate].
  - intros H; inversion H; subst; cbn. split; [reflexivity|]. left.
    split; reflexivity.
Qed.

Lemma parse_date_rejects_witness :
  class_of (Exn ValueError
              [Lit "Invalid format, no 'T' separator: "%string;
               Repr "2020-01-01"%string]) = ValueError /\
  ((contains "T" "2020-01-01" = false /\
    message_of (Exn ValueError
                  [Lit "Invalid format, no 'T' separator: "%string;
                   Repr "2020-01-01"%string])
      = [Lit "Invalid format, no 'T' separator: "%string;
         Repr (strip "2020-01-01")]) \/
   (exists d t,
      splits_as "2020-01-01" d t /\ (d = EmptyString \/ t = EmptyString) /\
      message_of (Exn ValueError
                    [Lit "Invalid format, no 'T' separator: "%string;
                     Repr "2020-01-01"%string])
        = [Lit "Incomplete date-time string: "%string; Repr "2020-01-01"%string;
           Lit " ? date="%string; Repr d; Lit ", time="%string; Repr t])).
Proof.
  apply (parse_date_rejects "2020-01-01"). vm_compute. reflexivity.
Defined.

Lemma parse_date_splits_at_first_T_witness :
  parse_date "-4000-01-01T00:00:00" = Ok ("-4000-01-01", "00:00:00")%string <->
  splits_as "-4000-01-01T00:00:00" "-4000-01-01" "00:00:00" /\
  "-4000-01-01"%string <> EmptyString /\ "00:00:00"%string <> EmptyString.
Proof.
  apply (parse_date_splits_at_first_T
           "-4000-01-01T00:00:00" "-4000-01-01" "00:00:00").
Defined.

(** *** A RequestInformation pass that fails *)

Lemma parse_date_raises (s : string) (e : exn) :
  parse_date s = Raise e -> class_of e = ValueError.
Proof.
  unfold parse_date.
  destruct (negb (contains "T" s)); [intros H; inversion H; reflexivity|].
  destruct (split1 "T" s) as [|a [|b [|c rest]]];
    try (intros H; inversion H; reflexivity).
  destruct (negb (truthy a) || negb (truthy b));
    intros H; inversion H; reflexivity.
Qed.

Lemma datetime64_raises (s : string) (e : exn) :
  datetime64 s = Raise e -> class_of e = ValueError.
Proof.
  unfold datetime64.
  destruct (String.eqb s "" || String.eqb (lower s) "nat"); [discriminate|].
  destruct (parse_iso_8601_datetime s) as [dts|]; [discriminate|].
  intros H; inversion H; reflexivity.
Qed.

Lemma for_append_Raise {A B} (body : A -> result B) (l : list A) (e : exn) :
  for_append body l = Raise e -> exists x, In x l /\ body x = Raise e.
Proof.
  induction l as [|x l IH]; unfold for_append; fold (@for_append A B).
  - discriminate.
  - destruct (body x) as [y|e'] eqn:E; unfold rbind.
    + destruct (for_append body l) as [ys|e'] eqn:El; [discriminate|].
      intros H; inversion H; subst.
      destruct (IH eq_refl) as (x' & Hin & Hx').
      exists x'. split; [right; exact Hin | exact Hx'].
    + intros H; inversion H; subst. exists x. split; [left; reflexivity | exact E].
Qed.

Lemma for_append_Ok_all {A B} (body : A -> result B) (l : list A) (ys : list B) :
  for_append body l = Ok ys -> forall x, In x l -> exists y, body x = Ok y.
Proof.
  revert ys; induction l as [|x l IH]; intros ys; unfold for_append;
    fold (@for_append A B).
  - intros _ x [].
  - destruct (body x) as [y|e] eqn:E; unfold rbind; [|discriminate].
    destruct (for_append body l) as [ys'|e] eqn:El; [|discriminate].
    intros _ x' [<-|Hin]; [exists y; exact E | eapply IH; [reflexivity | exact Hin]].
Qed.

Lemma for_append_nth {A B} (body : A -> result B) (l : list A) (ys : list B)
  (i : nat) (x : A) :
  for_append body l = Ok ys -> nth_error l i = Some x ->
  exists y, nth_error ys i = Some y /\ body x = Ok y.
Proof.
  revert ys i; induction l as [|a l IH]; intros ys i; unfold for_append;
    fold (@for_append A B).
  - intros _ H. destruct i; discriminate H.
  - destruct (body a) as [y|e] eqn:E; unfold rbind; [|discriminate].
    destruct (for_append body l) as [ys'|e] eqn:El; [|discriminate].
    intros H Hn. inversion H; subst.
    destruct i as [|i].
    + inversion Hn; subst. exists y. split; [reflexivity | exact E].
    + apply (IH ys' i eq_refl Hn).
Qed.

Lemma annotation_of_raises (s : string) (e : exn) :
  annotation_of s = Raise e -> class_of e = ValueError.
Proof.
  unfold annotation_of. destruct (parse_date s) as [[d t]|e'] eqn:E;
    unfold rbind; [discriminate|].
  intros H; inversion H; subst. eapply parse_date_raises; exact E.
Qed.

Lemma seconds_since_raises (ref_date : datetime) (s : string) (e : exn) :
  seconds_since ref_date s = Raise e -> class_of e = ValueError.
Proof.
  unfold seconds_since. destruct (datetime64 s) as [v|e'] eqn:E;
    unfold rbind; [discriminate|].
  intros H; inversion H; subst. eapply datetime64_raises; exact E.
Qed.

(** The state a failed pass leaves: [self] without timelines, the rest of
    the filter as it was. *)
Lemma RequestInformation_Raise (time_file : list string) (st st' : filter)
  (e : exn) :
  RequestInformation time_file st = (st', Raise e) ->
  ((class_of e = RuntimeError /\ read_lines time_file = []) \/
   (class_of e = ValueError /\ read_lines time_file <> [])) /\
  custom_times (self st') = None /\
  orig_times (self st') = None /\
  initialized (self st') = initialized (self st) /\
  current_requested_custom_time (self st')
    = current_requested_custom_time (self st) /\
  in_info st' = in_info st /\
  out_info st' = out_info st /\
  input_fd st' = input_fd st /\
  output_fd st' = output_fd st.
Proof.
  rewrite RequestInformation_unfold. unfold bind, build.
  destruct st as [s i o fi fo].
  destruct (read_lines time_file) as [|first rest] eqn:El.
  - unfold raise. intros H; inversion H; subst; cbn.
    repeat split; auto.
  - run_script.
    destruct (datetime64 first) as [ref_date|e1] eqn:Er; cbn.
    2:{ intros H; inversion H; subst; cbn.
        repeat split; auto. right.
        split; [eapply datetime64_raises; exact Er | discriminate]. }
    destruct (parse_date first) as [[d t]|e1] eqn:Ep; cbn.
    2:{ intros H; inversion H; subst; cbn.
        repeat split; auto. right.
        split; [eapply parse_date_raises; exact Ep | discriminate]. }
    destruct (for_append annotation_of (first :: rest)) as [annotation|e1] eqn:Ea;
      cbn.
    2:{ intros H; inversion H; subst; cbn.
        repeat split; auto. right. split; [|discriminate].
        destruct (for_append_Raise _ _ _ Ea) as (x & _ & Hx).
        eapply annotation_of_raises; exact Hx. }
    destruct (for_append (seconds_since ref_date) (first :: rest))
      as [times|e1] eqn:Et; cbn.
    2:{ intros H; inversion H; subst; cbn.
        repeat split; auto. right. split; [|discriminate].
        destruct (for_append_Raise _ _ _ Et) as (x & _ & Hx).
        eapply seconds_since_raises; exact Hx. }
    destruct (Length_TIME_STEPS i =? List.length times) eqn:En; cbn.
    + rewrite (publish_run _ times);
        [discriminate | reflexivity | eapply for_append_nonempty; exact Et].
    + intros H; inversion H; subst; cbn.
      repeat split; auto. right. split; [reflexivity | discriminate].
Qed.

Lemma read_lines_app (f1 f2 : list string) :
  read_lines (f1 ++ f2) = read_lines f1 ++ read_lines f2.
Proof. unfold read_lines. rewrite filter_app, map_app. reflexivity. Qed.

Lemma read_lines_dropped (raw : string) :
  dropped raw = true -> read_lines [raw] = [].
Proof.
  unfold dropped, read_lines. cbn. intros H.
  destruct (truthy (strip raw)); destruct (startswith raw "#");
    try discriminate; reflexivity.
Qed.

Lemma read_lines_all_dropped (time_file : list string) :
  forallb dropped time_file = true -> read_lines time_file = [].
Proof.
  induction time_file as [|raw f IH]; intros H.
  - reflexivity.
  - cbn [forallb] in H. apply andb_true_iff in H. destruct H as [Hr Hf].
    change (raw :: f) with ([raw] ++ f).
    rewrite read_lines_app, (read_lines_dropped raw Hr), (IH Hf). reflexivity.
Qed.

(** X1: a file in which every line is blank after stripping or starts with
    [#] ends the pass with [RuntimeError("TXT file empty!")]; the two
    timelines are deleted from [self] and nothing else changes. *)
Theorem empty_file_raises (time_file : list string) (st : filter) :
  forallb dropped time_file = true ->
  RequestInformation time_file st =
    (with_self cleared st, Raise (Exn RuntimeError [Lit "TXT file empty!"%string])).
Proof.
  intros H. rewrite RequestInformation_unfold. unfold bind, build.
  rewrite (read_lines_all_dropped time_file H). reflexivity.
Qed.

Lemma empty_file_raises_witness :
  RequestInformation [line "# no entries yet"; nl; line "   "]
    (built hourly_file 3) =
    (with_self cleared (built hourly_file 3),
     Raise (Exn RuntimeError [Lit "TXT file empty!"%string])).
Proof.
  apply (empty_file_raises [line "# no entries yet"; nl; line "   "]
           (built hourly_file 3)).
  vm_compute. reflexivity.
Defined.

(** X4: one usable line that [parse_date] rejects (no [T], or nothing
    before or after the first [T]) is enough for the pass to end in a
    [ValueError], wherever the line stands in the file. *)
Theorem malformed_line_fails_pass
  (time_file : list string) (st : filter) (bad : string) (e0 : exn) :
  In bad (read_lines time_file) ->
  parse_date bad = Raise e0 ->
  exists st' e,
    RequestInformation time_file st = (st', Raise e) /\
    class_of e = ValueError.
Proof.
  intros Hin Hbad.
  destruct (RequestInformation time_file st) as [st' [[]|e]] eqn:E.
  - exfalso. apply RequestInformation_Ok in E.
    destruct E as (first & rest & ref_date & d & t & annotation & times
                   & El & _ & _ & Ea & _).
    rewrite El in Hin.
    destruct (for_append_Ok_all _ _ _ Ea bad Hin) as [y Hy].
    unfold annotation_of in Hy. rewrite Hbad in Hy. discriminate Hy.
  - exists st', e. split; [reflexivity|].
    destruct (RequestInformation_Raise _ _ _ _ E) as ([[_ Hnil]|[Hc _]] & _).
    + rewrite Hnil in Hin. destruct Hin.
    + exact Hc.
Qed.

Lemma malformed_line_fails_pass_witness :
  exists st' e,
    RequestInformation incomplete_file (fresh (steps 2)) = (st', Raise e) /\
    class_of e = ValueError.
Proof.
  apply (malformed_line_fails_pass incomplete_file (fresh (steps 2))
           "2000-01-02T"
           (Exn ValueError
              [Lit "Incomplete date-time string: "%string;
               Repr "2000-01-02T"%string; Lit " ? date="%string;
               Repr "2000-01-02"%string; Lit ", time="%string;
               Repr ""%string])).
  - vm_compute. right. left. reflexivity.
  - vm_compute. reflexivity.
Defined.

(** X5: whenever the pass raises once the time file has been opened and
    read, [self] has neither timeline afterwards, [initialized] and the
    recorded request are as before, and both information objects and the
    field data are untouched, so nothing reached the downstream side; the
    exception is [RuntimeError("TXT file empty!")] exactly when the file
    has no usable line. *)
Theorem failed_pass_publishes_nothing
  (time_file : list string) (st st' : filter) (e : exn) :
  RequestInformation time_file st = (st', Raise e) ->
  (read_lines time_file = [] <->
   e = Exn RuntimeError [Lit "TXT file empty!"%string]) /\
  custom_times (self st') = None /\
  orig_times (self st') = None /\
  initialized (self st') = initialized (self st) /\
  current_requested_custom_time (self st')
    = current_requested_custom_time (self st) /\
  in_info st' = in_info st /\
  out_info st' = out_info st /\
  input_fd st' = input_fd st /\
  output_fd st' = output_fd st.
Proof.
  intros H.
  destruct (RequestInformation_Raise _ _ _ _ H) as (Hclass & Hrest).
  split; [|exact Hrest]. split.
  - intros Hnil. rewrite RequestInformation_unfold in H.
    unfold bind, build in H. rewrite Hnil in H. unfold raise in H.
    inversion H. reflexivity.
  - intros ->. destruct Hclass as [[_ Hnil]|[Hc _]];
      [exact Hnil | discriminate Hc].
Qed.

Lemma failed_pass_publishes_nothing_witness :
  (read_lines incomplete_file = [] <->
   Exn ValueError
     [Lit "Incomplete date-time string: "%string;
      Repr "2000-01-02T"%string; Lit " ? date="%string;
      Repr "2000-01-02"%string; Lit ", time="%string;
      Repr ""%string]
   = Exn RuntimeError [Lit "TXT file empty!"%string]) /\
  custom_times
    (self (fst (RequestInformation incomplete_file (built hourly_file 3)))) = None /\
  orig_times
    (self (fst (RequestInformation incomplete_file (built hourly_file 3)))) = None /\
  initialized
    (self (fst (RequestInformation incomplete_file (built hourly_file 3))))
    = initialized (self (built hourly_file 3)) /\
  current_requested_custom_time
    (self (fst (RequestInformation incomplete_file (built hourly_file 3))))
    = current_requested_custom_time (self (built hourly_file 3)) /\
  in_info (fst (RequestInformation incomplete_file (built hourly_file 3)))
    = in_info (built hourly_file 3) /\
  out_info (fst (RequestInformation incomplete_file (built hourly_file 3)))
    = out_info (built hourly_file 3) /\
  input_fd (fst (RequestInformation incomplete_file (built hourly_file 3)))
    = input_fd (built hourly_file 3) /\
  output_fd (fst (RequestInformation incomplete_file (built hourly_file 3)))
    = output_fd (built hourly_file 3).
Proof.
  apply (failed_pass_publishes_nothing incomplete_file (built hourly_file 3)).
  vm_compute. reflexivity.
Defined.

(** *** The later scripts on a filter without timelines *)

Lemma RequestUpdateExtent_without_timelines (st : filter) :
  custom_times (self st) = None ->
  orig_times (self st) = None ->
  exists e,
    snd (RequestUpdateExtent st) = Raise e /\
    class_of e = AttributeError /\
    self (fst (RequestUpdateExtent st)) = self st /\
    out_info (fst (RequestUpdateExtent st)) = out_info st.
Proof.
  destruct st as [[ct ot nu an ini cur] i o fi fo]. cbn.
  intros -> ->. unfold RequestUpdateExtent. run_script.
  unfold with_in_info.
  destruct (UPDATE_TIME_STEP o) as [r|]; cbn.
  - eexists. repeat split.
  - destruct (Has UPDATE_TIME_STEP i); cbn; eexists; repeat split.
Qed.

Lemma RequestData_without_custom_times (st : filter) :
  custom_times (self st) = None ->
  exists e,
    snd (RequestData st) = Raise e /\
    class_of e = AttributeError /\
    self (fst (RequestData st)) = self st /\
    (forall a, In a (output_fd (fst (RequestData st))) ->
               has_name "current_date" a = true -> In a (input_fd st)).
Proof.
  destruct st as [[ct ot nu an ini cur] i o fi fo]. cbn.
  intros ->. unfold RequestData. run_script. unfold with_output_fd.
  assert (Hcd : forall units a,
            In a (AddArray (remove_time_units fi) (time_units_array units)) ->
            has_name "current_date" a = true -> In a fi).
  { intros units a Ha Hn. apply In_AddArray in Ha. destruct Ha as [->|Ha].
    - vm_compute in Hn. discriminate Hn.
    - rewrite remove_time_units_filter in Ha. apply filter_In in Ha. tauto. }
  assert (Hrm : forall a, In a (remove_time_units fi) -> In a fi).
  { intros a Ha. rewrite remove_time_units_filter in Ha.
    apply filter_In in Ha. tauto. }
  destruct nu as [units|]; cbn.
  - destruct cur as [v|]; cbn; eexists; repeat split; cbn; eauto.
  - eexists; repeat split; cbn; eauto.
Qed.

(** X6: after a pass that raised, the timelines of any earlier session are
    gone, so both later scripts end in an [AttributeError] whatever time
    is requested and whatever input arrives: RequestUpdateExtent records
    no request on [self], and RequestData attaches no [current_date]
    array (one on the output can only be the input's own). *)
Theorem later_scripts_fail_after_failed_pass
  (time_file : list string) (st st' : filter) (e : exn)
  (r : option float) (fd : fielddata) :
  RequestInformation time_file st = (st', Raise e) ->
  (exists e1,
     snd (RequestUpdateExtent (request_time r st')) = Raise e1 /\
     class_of e1 = AttributeError /\
     self (fst (RequestUpdateExtent (request_time r st'))) = self st') /\
  (exists e2,
     snd (RequestData (deliver_input fd st')) = Raise e2 /\
     class_of e2 = AttributeError /\
     self (fst (RequestData (deliver_input fd st'))) = self st' /\
     forall a, In a (output_fd (fst (RequestData (deliver_input fd st')))) ->
               has_name "current_date" a = true -> In a fd).
Proof.
  intros H. destruct (RequestInformation_Raise _ _ _ _ H) as (_ & Hct & Hot & _).
  split.
  - destruct (RequestUpdateExtent_without_timelines (request_time r st'))
      as (e1 & H1 & H2 & H3 & _);
      [destruct st'; exact Hct | destruct st'; exact Hot |].
    exists e1. repeat split; [exact H1 | exact H2 |].
    rewrite H3. destruct st'; reflexivity.
  - destruct (RequestData_without_custom_times (deliver_input fd st'))
      as (e2 & H1 & H2 & H3 & H4); [destruct st'; exact Hct|].
    exists e2. repeat split; [exact H1 | exact H2 | |].
    + rewrite H3. destruct st'; reflexivity.
    + intros a Ha Hn. apply (H4 a Ha Hn).
Qed.

Lemma later_scripts_fail_after_failed_pass_witness :
  (exists e1,
     snd (RequestUpdateExtent
            (request_time (Some (fin (inject_Z 3600)))
               (fst (RequestInformation incomplete_file (built hourly_file 3)))))
       = Raise e1 /\
     class_of e1 = AttributeError /\
     self (fst (RequestUpdateExtent
                  (request_time (Some (fin (inject_Z 3600)))
                     (fst (RequestInformation incomplete_file (built hourly_file 3))))))
       = self (fst (RequestInformation incomplete_file (built hourly_file 3)))) /\
  (exists e2,
     snd (RequestData
            (deliver_input source_fd
               (fst (RequestInformation incomplete_file (built hourly_file 3)))))
       = Raise e2 /\
     class_of e2 = AttributeError /\
     self (fst (RequestData
                  (deliver_input source_fd
                     (fst (RequestInformation incomplete_file (built hourly_file 3))))))
       = self (fst (RequestInformation incomplete_file (built hourly_file 3))) /\
     forall a,
       In a (output_fd
               (fst (RequestData
                       (deliver_input source_fd
                          (fst (RequestInformation incomplete_file
                                  (built hourly_file 3))))))) ->
       has_name "current_date" a = true -> In a source_fd).
Proof.
  apply (later_scripts_fail_after_failed_pass incomplete_file
           (built hourly_file 3)
           (fst (RequestInformation incomplete_file (built hourly_file 3)))
           (Exn ValueError
              [Lit "Incomplete date-time string: "%string;
               Repr "2000-01-02T"%string; Lit " ? date="%string;
               Repr "2000-01-02"%string; Lit ", time="%string;
               Repr ""%string])).
  vm_compute. reflexivity.
Defined.

(** *** What a pass that succeeds leaves behind *)

(** X7: after every pass that runs to its end and whose reference line is
    read as an instant (not as not-a-time, which NumPy gives for a date
    whose second count is the least 64-bit value), the first custom time
    is 0.0, the reference entry measured from itself, and it is the lower
    end of the published range. *)
Theorem first_custom_time_is_zero
  (time_file : list string) (st st' : filter)
  (first : string) (rest : list string) (u : Z) :
  RequestInformation time_file st = (st', Ok tt) ->
  read_lines time_file = first :: rest ->
  datetime64 first = Ok (Instant u) ->
  exists times hi,
    custom_times (self st') = Some (fin (inject_Z 0) :: times) /\
    TIME_RANGE (out_info st') = Some [fin (inject_Z 0); hi].
Proof.
  intros H El' Er'. apply RequestInformation_Ok in H.
  destruct H as (first0 & rest0 & ref_date & d & t & annotation & times
                 & El & Er & Ep & Ea & Et & En & ->).
  rewrite El' in El. inversion El; subst first0 rest0; clear El.
  rewrite Er' in Er. inversion Er; subst ref_date; clear Er.
  unfold for_append in Et; fold (@for_append string float) in Et.
  unfold seconds_since at 1 in Et. rewrite Er' in Et. unfold rbind at 1 2 in Et.
  destruct (for_append (seconds_since (Instant u)) rest) as [ts|e]; [|discriminate Et].
  cbn in Et. inversion Et; subst times; clear Et.
  rewrite Z.sub_diag.
  exists ts, (last (float_of_int 0 :: ts) (float_of_int 0)).
  split; reflexivity.
Qed.

Lemma first_custom_time_is_zero_witness :
  exists times hi,
    custom_times (self (built bce_file 2)) = Some (fin (inject_Z 0) :: times) /\
    TIME_RANGE (out_info (built bce_file 2)) = Some [fin (inject_Z 0); hi].
Proof.
  apply (first_custom_time_is_zero bce_file (fresh (steps 2))
           (built bce_file 2)
           "-0100-01-01T00:00:00" ["0001-01-01T00:00:00"%string]
           (-65322892800)%Z).
  - vm_compute. reflexivity.
  - vm_compute. reflexivity.
  - vm_compute. reflexivity.
Defined.

(** X8: after a pass that runs to its end the annotation at position [i]
    is the text of the [i]-th usable line with its first [T] replaced by
    one blank. *)
Theorem annotation_is_line_with_blank
  (time_file : list string) (st st' : filter) :
  RequestInformation time_file st = (st', Ok tt) ->
  exists annotation,
    custom_times_annotation (self st') = Some annotation /\
    forall i entry,
      nth_error (read_lines time_file) i = Some entry ->
      exists d t,
        splits_as entry d t /\
        nth_error annotation i = Some (d ++ " " ++ t)%string.
Proof.
  intros H. apply RequestInformation_Ok in H.
  destruct H as (first & rest & ref_date & d0 & t0 & annotation & times
                 & El & Er & Ep & Ea & Et & En & ->).
  exists annotation. split; [reflexivity|].
  intros i entry Hi. rewrite El in Hi.
  destruct (for_append_nth _ _ _ i entry Ea Hi) as (y & Hy & Hbody).
  unfold annotation_of in Hbody.
  destruct (parse_date entry) as [[d t]|e] eqn:Ep'; [|discriminate Hbody].
  cbn in Hbody. inversion Hbody; subst y.
  exists d, t. split; [|exact Hy].
  apply parse_date_splits_at_first_T in Ep'. tauto.
Qed.

Lemma annotation_is_line_with_blank_witness :
  exists annotation,
    custom_times_annotation (self (built bce_file 2)) = Some annotation /\
    forall i entry,
      nth_error (read_lines bce_file) i = Some entry ->
      exists d t,
        splits_as entry d t /\
        nth_error annotation i = Some (d ++ " " ++ t)%string.
Proof.
  apply (annotation_is_line_with_blank bce_file (fresh (steps 2))).
  vm_compute. reflexivity.
Defined.

(** X9: after a pass that runs to its end the original timeline is the
    upstream list of native time steps as it stands, and the downstream
    side is offered exactly as many time steps as the upstream side has. *)
Theorem original_timeline_is_upstream_steps
  (time_file : list string) (st st' : filter) :
  RequestInformation time_file st = (st', Ok tt) ->
  exists upstream times,
    TIME_STEPS (in_info st) = Some upstream /\
    in_info st' = in_info st /\
    orig_times (self st') = Some upstream /\
    TIME_STEPS (out_info st') = Some times /\
    List.length times = List.length upstream.
Proof.
  intros H. apply RequestInformation_Ok in H.
  destruct H as (first & rest & ref_date & d & t & annotation & times
                 & El & Er & Ep & Ea & Et & En & ->).
  pose proof (for_append_nonempty _ _ _ _ Et) as Hne.
  destruct st as [s [ts tr up] o fi fo]. cbn in *.
  unfold Length_TIME_STEPS in En. cbn in En.
  destruct ts as [upstream|].
  - exists upstream, times. rewrite native_steps_eq.
    repeat split; auto.
  - destruct times; [congruence | discriminate En].
Qed.

Lemma original_timeline_is_upstream_steps_witness :
  exists upstream times,
    TIME_STEPS (in_info (fresh (steps 3))) = Some upstream /\
    in_info (built hourly_file 3) = in_info (fresh (steps 3)) /\
    orig_times (self (built hourly_file 3)) = Some upstream /\
    TIME_STEPS (out_info (built hourly_file 3)) = Some times /\
    List.length times = List.length upstream.
Proof.
  apply (original_timeline_is_upstream_steps hourly_file (fresh (steps 3))).
  vm_compute. reflexivity.
Defined.

(** *** Durations *)

Lemma ascending_nth (l : list Z) (i j : nat) (x y : Z) :
  ascending l = true -> i <= j ->
  nth_error l i = Some x -> nth_error l j = Some y -> (x <= y)%Z.
Proof.
  revert i j x y; induction l as [|a l IH]; intros i j x y Hasc Hij Hi Hj.
  - destruct i; discriminate Hi.
  - assert (Htail : ascending l = true).
    { destruct l as [|b l]; [reflexivity|].
      cbn in Hasc. apply andb_true_iff in Hasc. tauto. }
    assert (Hhead : forall k z, nth_error l k = Some z -> (a <= z)%Z).
    { clear i j x y Hij Hi Hj. intros k z Hk.
      destruct l as [|b l]; [destruct k; discriminate Hk|].
      cbn in Hasc. apply andb_true_iff in Hasc. destruct Hasc as [Hab _].
      apply Z.leb_le in Hab.
      assert (Hbz : (b <= z)%Z).
      { apply (IH 0 k b z Htail); [lia | reflexivity | exact Hk]. }
      lia. }
    destruct i as [|i]; destruct j as [|j].
    + inversion Hi; inversion Hj; subst. lia.
    + inversion Hi; subst. apply (Hhead j y). exact Hj.
    + lia.
    + apply (IH i j x y Htail); [lia | exact Hi | exact Hj].
Qed.

(** X10: when every usable line is read as an instant at most 2^52
    seconds from 1970, the custom time of each entry is the exact
    difference in seconds between its instant and the instant of the
    first entry: no wrap-around of the 64-bit subtraction and no rounding
    in the conversion to float. *)
Theorem durations_are_exact_differences
  (time_file : list string) (st st' : filter) (us : list Z) :
  RequestInformation time_file st = (st', Ok tt) ->
  map datetime64 (read_lines time_file) = map (fun u => Ok (Instant u)) us ->
  forallb near_epoch us = true ->
  custom_times (self st') = Some (exact_durations us) /\
  TIME_STEPS (out_info st') = Some (exact_durations us).
Proof.
  intros H Hm Hn. split; [eapply custom_times_exact; eassumption|].
  pose proof (custom_times_exact _ _ _ _ H Hm Hn) as Hct.
  apply RequestInformation_Ok in H.
  destruct H as (first & rest & ref_date & d & t & annotation & times
                 & _ & _ & _ & _ & _ & _ & ->).
  cbn in *. exact Hct.
Qed.

Lemma durations_are_exact_differences_witness :
  custom_times (self (built bce_file 2))
    = Some (exact_durations [-65322892800; -62135596800]%Z) /\
  TIME_STEPS (out_info (built bce_file 2))
    = Some (exact_durations [-65322892800; -62135596800]%Z).
Proof.
  apply (durations_are_exact_differences bce_file (fresh (steps 2))).
  - vm_compute. reflexivity.
  - vm_compute. reflexivity.
  - vm_compute. reflexivity.
Defined.

(** X11: when, in addition, the instants of the usable lines are in
    ascending order (equal neighbours allowed), the custom timeline never
    decreases. *)
Theorem ascending_dates_give_non_decreasing_timeline
  (time_file : list string) (st st' : filter) (us : list Z) :
  RequestInformation time_file st = (st', Ok tt) ->
  map datetime64 (read_lines time_file) = map (fun u => Ok (Instant u)) us ->
  forallb near_epoch us = true ->
  ascending us = true ->
  exists times,
    custom_times (self st') = Some times /\ non_decreasing times.
Proof.
  intros H Hm Hn Hasc. exists (exact_durations us).
  split; [eapply custom_times_exact; eassumption|].
  unfold non_decreasing, exact_durations. intros i j x y Hij Hi Hj.
  rewrite nth_error_map in Hi, Hj.
  destruct (nth_error us i) as [a|] eqn:Ea; [|discriminate Hi].
  destruct (nth_error us j) as [b|] eqn:Eb; [|discriminate Hj].
  cbn in Hi, Hj. inversion Hi; inversion Hj; subst x y.
  pose proof (ascending_nth us i j a b Hasc Hij Ea Eb) as Hab.
  cbn. apply Qle_bool_iff. rewrite <- Zle_Qle. lia.
Qed.

Lemma ascending_dates_give_non_decreasing_timeline_witness :
  exists times,
    custom_times (self (built hourly_file 3)) = Some times /\
    non_decreasing times.
Proof.
  apply (ascending_dates_give_non_decreasing_timeline hourly_file
           (fresh (steps 3)) (built hourly_file 3)
           [946728000; 946731600; 946735200]%Z).
  - vm_compute. reflexivity.
  - vm_compute. reflexivity.
  - vm_compute. reflexivity.
  - vm_compute. reflexivity.
Defined.

(** *** Rebuilding *)

Lemma RequestInformation_run (time_file : list string) (st : filter)
  (first : string) (rest : list string) (ref_date : datetime) (d t : string)
  (annotation : list string) (times : list float) :
  read_lines time_file = first :: rest ->
  datetime64 first = Ok ref_date ->
  parse_date first = Ok (d, t) ->
  for_append annotation_of (first :: rest) = Ok annotation ->
  for_append (seconds_since ref_date) (first :: rest) = Ok times ->
  Length_TIME_STEPS (in_info st) = List.length times ->
  RequestInformation time_file st =
    ({| self := rebuilt times (native_steps (in_info st)) annotation
                  (units_label d t) (self st);
        in_info := in_info st;
        out_info := published times (out_info st);
        input_fd := input_fd st;
        output_fd := output_fd st |}, Ok tt).
Proof.
  intros El Er Ep Ea Et En.
  rewrite RequestInformation_unfold. unfold bind, build. rewrite El.
  destruct st as [s i o fi fo]. run_script. rewrite Er, Ep. cbn.
  rewrite Ea. cbn. rewrite Et. cbn. cbn in En.
  apply Nat.eqb_eq in En. rewrite En. cbn.
  rewrite (publish_run _ times);
    [| reflexivity | eapply for_append_nonempty; exact Et].
  apply Nat.eqb_eq in En. unfold native_steps. cbn. rewrite En. reflexivity.
Qed.

Lemma RequestInformation_lines (f1 f2 : list string) (st : filter) :
  read_lines f1 = read_lines f2 ->
  RequestInformation f1 st = RequestInformation f2 st.
Proof.
  intros H. rewrite !RequestInformation_unfold. unfold bind, build.
  rewrite H. reflexivity.
Qed.

(** X12: a pass that ran to its end can be repeated: on the filter it left
    behind, with the same file and the same upstream steps, it runs to its
    end again and leaves the filter exactly as it was. *)
Theorem rebuild_is_idempotent
  (time_file : list string) (st st' : filter) :
  RequestInformation time_file st = (st', Ok tt) ->
  RequestInformation time_file st' = (st', Ok tt).
Proof.
  intros H. apply RequestInformation_Ok in H.
  destruct H as (first & rest & ref_date & d & t & annotation & times
                 & El & Er & Ep & Ea & Et & En & ->).
  rewrite (RequestInformation_run time_file _ first rest ref_date d t
             annotation times El Er Ep Ea Et) by exact En.
  reflexivity.
Qed.

Lemma rebuild_is_idempotent_witness :
  RequestInformation hourly_file (built hourly_file 3)
    = (built hourly_file 3, Ok tt).
Proof.
  apply (rebuild_is_idempotent hourly_file (fresh (steps 3))).
  vm_compute. reflexivity.
Defined.

(** X13: what a pass that runs to its end stores and publishes is decided
    by the file and the upstream information alone: started from any
    other filter with that upstream information, whatever timelines,
    labels or published steps an earlier session left there, it runs to
    its end with the same timelines, annotations, unit label, published
    steps and published range. *)
Theorem rebuild_ignores_earlier_session
  (time_file : list string) (st1 st1' st2 : filter) :
  RequestInformation time_file st1 = (st1', Ok tt) ->
  in_info st2 = in_info st1 ->
  exists st2',
    RequestInformation time_file st2 = (st2', Ok tt) /\
    custom_times (self st2') = custom_times (self st1') /\
    orig_times (self st2') = orig_times (self st1') /\
    custom_times_annotation (self st2') = custom_times_annotation (self st1') /\
    new_units (self st2') = new_units (self st1') /\
    initialized (self st2') = initialized (self st1') /\
    TIME_STEPS (out_info st2') = TIME_STEPS (out_info st1') /\
    TIME_RANGE (out_info st2') = TIME_RANGE (out_info st1').
Proof.
  intros H Hin. apply RequestInformation_Ok in H.
  destruct H as (first & rest & ref_date & d & t & annotation & times
                 & El & Er & Ep & Ea & Et & En & ->).
  rewrite <- Hin in En.
  eexists. split.
  - apply (RequestInformation_run time_file st2 first rest ref_date d t
             annotation times El Er Ep Ea Et En).
  - cbn. rewrite Hin. repeat split.
Qed.

Lemma rebuild_ignores_earlier_session_witness :
  exists st2',
    RequestInformation hourly_file (built descending_file 3) = (st2', Ok tt) /\
    custom_times (self st2') = custom_times (self (built hourly_file 3)) /\
    orig_times (self st2') = orig_times (self (built hourly_file 3)) /\
    custom_times_annotation (self st2')
      = custom_times_annotation (self (built hourly_file 3)) /\
    new_units (self st2') = new_units (self (built hourly_file 3)) /\
    initialized (self st2') = initialized (self (built hourly_file 3)) /\
    TIME_STEPS (out_info st2') = TIME_STEPS (out_info (built hourly_file 3)) /\
    TIME_RANGE (out_info st2') = TIME_RANGE (out_info (built hourly_file 3)).
Proof.
  apply (rebuild_ignores_earlier_session hourly_file (fresh (steps 3))
           (built hourly_file 3) (built descending_file 3)).
  - vm_compute. reflexivity.
  - vm_compute. reflexivity.
Defined.

(** X14: a line that is blank after stripping, or that starts with [#],
    can be put anywhere in the file without changing what the pass does
    to any filter. *)
Theorem dropped_line_changes_nothing
  (before after : list string) (raw : string) (st : filter) :
  dropped raw = true ->
  RequestInformation (before ++ raw :: after) st
    = RequestInformation (before ++ after) st.
Proof.
  intros H. apply RequestInformation_lines.
  change (raw :: after) with ([raw] ++ after).
  rewrite !read_lines_app, (read_lines_dropped raw H). reflexivity.
Qed.

Lemma dropped_line_changes_nothing_witness :
  RequestInformation
    ([line "2000-01-01T12:00:00"] ++ line "#2000-01-01T12:30:00" ::
       [line "2000-01-01T13:00:00"; line "2000-01-01T14:00:00"])
    (fresh (steps 3))
  = RequestInformation
      ([line "2000-01-01T12:00:00"] ++
         [line "2000-01-01T13:00:00"; line "2000-01-01T14:00:00"])
      (fresh (steps 3)).
Proof.
  apply (dropped_line_changes_nothing
           [line "2000-01-01T12:00:00"]
           [line "2000-01-01T13:00:00"; line "2000-01-01T14:00:00"]
           (line "#2000-01-01T12:30:00") (fresh (steps 3))).
  vm_compute. reflexivity.
Defined.

(** *** RequestData on its own *)






(** *** RequestUpdateExtent on its own *)

Lemma RequestUpdateExtent_in_steps (st : filter) :
  TIME_STEPS (in_info (fst (RequestUpdateExtent st))) = TIME_STEPS (in_info st) /\
  TIME_RANGE (in_info (fst (RequestUpdateExtent st))) = TIME_RANGE (in_info st).
Proof.
  destruct st as [[ct ot nu an ini cur] i o fi fo].
  unfold RequestUpdateExtent. run_script.
  unfold with_in_info, with_self, getitem.
  break_matches; split; reflexivity.
Qed.

Lemma RequestData_in_info (st : filter) :
  in_info (fst (RequestData st)) = in_info st.
Proof.
  destruct st as [[ct ot nu an ini cur] i o fi fo].
  unfold RequestData. run_script.
  unfold with_output_fd, getitem.
  break_matches; reflexivity.
Qed.

Lemma session_orig_is_upstream (st : filter) :
  session st -> orig_times (self st) = TIME_STEPS (in_info st).
Proof.
  induction 1 as [time_file st st' Hb | t st _ IH | fd st _ IH
                 | st st' idx _ IH Hr | st st' idx _ IH Hr].
  - apply RequestInformation_Ok in Hb.
    destruct Hb as (first & rest & ref_date & d & t & annotation & times
                    & El & Er & Ep & Ea & Et & En & ->).
    pose proof (for_append_nonempty _ _ _ _ Et) as Hne.
    destruct st as [s [ts tr up] o fi fo]. cbn in *.
    unfold Length_TIME_STEPS in En. cbn in En.
    destruct ts as [upstream|].
    + rewrite native_steps_eq. reflexivity.
    + destruct times; [congruence | discriminate En].
  - destruct st; exact IH.
  - destruct st; exact IH.
  - destruct (RequestUpdateExtent_self st) as (_ & H2 & _).
    destruct (RequestUpdateExtent_in_steps st) as (H3 & _).
    rewrite Hr in H2, H3. cbn in H2, H3. rewrite H2, H3. exact IH.
  - pose proof (RequestData_self st) as H1.
    pose proof (RequestData_in_info st) as H2.
    rewrite Hr in H1, H2. cbn in H1, H2. rewrite H1, H2. exact IH.
Qed.

Lemma RequestUpdateExtent_in_session (st : filter) (r : option float) :
  consistent (self st) ->
  exists times orig t,
    custom_times (self st) = Some times /\
    orig_times (self st) = Some orig /\
    nth_error orig (resolve times r) = Some t /\
    RequestUpdateExtent (request_time r st)
      = ({| self := set_current_requested_custom_time
                      (Some (Some (match r with
                                   | Some x => x
                                   | None => fin 0%Q
                                   end))) (self st);
            in_info := Set_UPDATE_TIME_STEP (in_info st) t;
            out_info := out_info (request_time r st);
            input_fd := input_fd st;
            output_fd := output_fd st |}, Ok (resolve times r)).
Proof.
  intros (times & orig & annotation & units
          & Hct & Hot & Han & Hun & Hlo & Hla & Hne & _ & Hz).
  pose proof (resolve_lt times r Hne) as Hlt.
  destruct (nth_error_in_range orig (resolve times r)) as [t Ht]; [lia|].
  exists times, orig, t. repeat (split; [assumption|]).
  assert (Hask :
    resolve times (Some (Get_UPDATE_TIME_STEP (out_info (request_time r st))))
    = resolve times r).
  { destruct st as [s i o fi fo]. destruct r as [x|].
    - reflexivity.
    - rewrite resolve_None. exact Hz. }
  rewrite (RequestUpdateExtent_run (request_time r st) times orig t);
    [| destruct st; assumption | destruct st; assumption
     | rewrite Hask; exact Ht].
  rewrite Hask. destruct st; destruct r; reflexivity.
Qed.

(** X17: in every session state RequestUpdateExtent runs to its end for
    any request; it stores in [current_requested_custom_time] the value
    that [Get] returns for the output [UPDATE_TIME_STEP], which is the
    requested float itself (on the timeline or not) and 0.0 when no time
    was requested; it replaces the upstream request, and leaves the rest
    of [self], the output information and the other upstream keys as
    they were. *)
Theorem extent_records_request (st : filter) (r : option float) :
  session st ->
  exists idx t,
    RequestUpdateExtent (request_time r st)
      = ({| self := set_current_requested_custom_time
                      (Some (Some (match r with
                                   | Some x => x
                                   | None => fin 0%Q
                                   end))) (self st);
            in_info := Set_UPDATE_TIME_STEP (in_info st) t;
            out_info := out_info (request_time r st);
            input_fd := input_fd st;
            output_fd := output_fd st |}, Ok idx).
Proof.
  intros Hs.
  destruct (RequestUpdateExtent_in_session st r (session_consistent st Hs))
    as (times & orig & t & _ & _ & _ & Hrun).
  exists (resolve times r), t. exact Hrun.
Qed.

Lemma extent_records_request_witness :
  exists idx t,
    RequestUpdateExtent (request_time None (built hourly_file 3))
      = ({| self := set_current_requested_custom_time
                      (Some (Some (match @None float with
                                   | Some x => x
                                   | None => fin 0%Q
                                   end)))
                      (self (built hourly_file 3));
            in_info := Set_UPDATE_TIME_STEP (in_info (built hourly_file 3)) t;
            out_info := out_info (request_time None (built hourly_file 3));
            input_fd := input_fd (built hourly_file 3);
            output_fd := output_fd (built hourly_file 3) |}, Ok idx).
Proof.
  apply (extent_records_request (built hourly_file 3) None).
  apply built_session. vm_compute. reflexivity.
Defined.

(** X18: in every session state the time that RequestUpdateExtent asks
    the upstream reader for is one of the reader's own native time steps,
    whatever was requested downstream. *)
Theorem upstream_request_is_a_native_step (st : filter) (r : option float) :
  session st ->
  exists upstream t,
    TIME_STEPS (in_info st) = Some upstream /\
    UPDATE_TIME_STEP (in_info (fst (RequestUpdateExtent (request_time r st))))
      = Some t /\
    In t upstream.
Proof.
  intros Hs.
  pose proof (session_orig_is_upstream st Hs) as Hup.
  destruct (RequestUpdateExtent_in_session st r (session_consistent st Hs))
    as (times & orig & t & _ & Hot & Ht & Hrun).
  exists orig, t. split; [rewrite <- Hup; exact Hot|].
  rewrite Hrun. split; [reflexivity|]. eapply nth_error_In; exact Ht.
Qed.

Lemma upstream_request_is_a_native_step_witness :
  exists upstream t,
    TIME_STEPS (in_info (built hourly_file 3)) = Some upstream /\
    UPDATE_TIME_STEP
      (in_info (fst (RequestUpdateExtent
                       (request_time (Some (fin (inject_Z 3600)))
                          (built hourly_file 3)))))
      = Some t /\
    In t upstream.
Proof.
  apply (upstream_request_is_a_native_step (built hourly_file 3)
           (Some (fin (inject_Z 3600)))).
  apply built_session. vm_compute. reflexivity.
Defined.
